(** * Employee records and monthly payroll (NUEVO_DAMIAN.py)

    A shallow embedding of the repository and payroll code of
    [NUEVO_DAMIAN.py], and the properties its specification states.

    Conventions of the embedding.
    - A Python [float] is a binary64 number: Rocq's primitive [float], whose
      operations are the IEEE 754 ones CPython uses.
    - A Python [str] is a list of Unicode code points.
    - A [dict] is a finite map from field names to dynamically typed values.
    - Fields of the classes carry the types of their annotations.  A call
      whose arguments have other dynamic types is outside the model and is
      reported by the outcome [IllTyped], which is not a Python exception.
    - The JSON file of the repository is the list of records it holds, or
      nothing when the file does not exist; [json.dump] followed by
      [json.load] is taken to give the records back.
    - [print] is not modelled: [log_operacion] only prints. *)

From Stdlib Require Import ZArith NArith Floats Lia.
From stdpp Require Import gmap strings list fin_maps.

Set Warnings "-inexact-float".

(** * Exceptions and results *)

(** The four texts the program passes to [ValueError]. *)
Inductive mensaje :=
| CamposVacios                     (* Los campos de texto no pueden estar vacíos *)
| ValoresNegativos                 (* Los valores numéricos no pueden ser negativos *)
| YaExiste (cedula : list N)       (* Ya existe un empleado con cédula {cedula} *)
| NoHayEmpleados.                  (* No hay empleados registrados *)

Inductive exc :=
| ValueError (m : mensaje)
| TypeError
| KeyError (k : string)
| IllTyped.

Inductive result (A : Type) :=
| OK (a : A)
| Raise (e : exc).
Arguments OK {A} a.
Arguments Raise {A} e.

#[global] Instance result_ret : MRet result := fun A a => OK a.
#[global] Instance result_bind : MBind result := fun A B f m =>
  match m with
  | OK a => f a
  | Raise e => Raise e
  end.

(** * The Python built-ins the program uses *)

Module Py.

Definition str := list N.

(** [str.isspace] on one code point (CPython's [_PyUnicode_IsWhitespace]). *)
Definition isspace (c : N) : bool :=
  ((0x09 <=? c) && (c <=? 0x0D))%N || ((0x1C <=? c) && (c <=? 0x20))%N
  || (c =? 0x85)%N || (c =? 0xA0)%N || (c =? 0x1680)%N
  || ((0x2000 <=? c) && (c <=? 0x200A))%N
  || (c =? 0x2028)%N || (c =? 0x2029)%N || (c =? 0x202F)%N
  || (c =? 0x205F)%N || (c =? 0x3000)%N.

Fixpoint lstrip (s : str) : str :=
  match s with
  | c :: s' => if isspace c then lstrip s' else s
  | [] => []
  end.

Definition rstrip (s : str) : str := reverse (lstrip (reverse s)).

(** [s.strip()] *)
Definition strip (s : str) : str := rstrip (lstrip s).

(** Code points of an ASCII literal. *)
Definition lit (s : string) : str :=
  (fun c => N.of_nat (Ascii.nat_of_ascii c)) <$> String.list_ascii_of_string s.

(** Dynamically typed values: what a [dict] holds and what a call passes. *)
Inductive value :=
| VStr (s : str)
| VInt (n : Z)
| VFloat (x : float).

(** [v == s] for a [str] [s]: a number never equals a string. *)
Definition eq_str (v : value) (s : str) : bool :=
  match v with
  | VStr t => bool_decide (t = s)
  | _ => false
  end.

(** [d[k]] *)
Definition getitem (d : gmap string value) (k : string) : result value :=
  match d !! k with
  | Some v => OK v
  | None => Raise (KeyError k)
  end.

(** Binding of a call's positional and keyword arguments to the named
    parameters of a function without defaults: too many positional
    arguments, a parameter given twice, an unknown keyword and a missing
    argument all raise [TypeError]. *)
Fixpoint bind (params : list string) (args : list value)
    (kwargs : gmap string value) : result (list value) :=
  match params, args with
  | [], [] => if decide (size kwargs = 0) then OK [] else Raise TypeError
  | [], _ :: _ => Raise TypeError
  | p :: params', a :: args' =>
      match kwargs !! p with
      | Some _ => Raise TypeError
      | None => vs ← bind params' args' kwargs; OK (a :: vs)
      end
  | p :: params', [] =>
      match kwargs !! p with
      | Some a => vs ← bind params' [] (delete p kwargs); OK (a :: vs)
      | None => Raise TypeError
      end
  end.

(** ** Floats *)

(** [a / b] rounded to the nearest integer, ties to the even one ([0 < b]). *)
Definition div_half_even (a b : Z) : Z :=
  let q := (a / b)%Z in
  match (2 * (a mod b) ?= b)%Z with
  | Lt => q
  | Gt => (q + 1)%Z
  | Eq => if Z.even q then q else (q + 1)%Z
  end.

(** The binary64 number nearest to the integer [n]: [float(n)]. *)
Definition of_Z (n : Z) : float :=
  SF2Prim (binary_normalize prec emax n 0 false).

(** The binary64 number nearest to [n / d], negated when [s]: what
    reading back the decimal with numerator [n] gives. *)
Definition of_ratio (s : bool) (n d : positive) : float :=
  SF2Prim (SFdiv prec emax (S754_finite s n 0) (S754_finite false d 0)).

(** The float written [n / 10 ^ ndigits] in decimal, with a minus sign
    when [s]. *)
Definition of_decimal (s : bool) (n ndigits : Z) : float :=
  match n with
  | Z.pos k => of_ratio s k (Z.to_pos (10 ^ ndigits))
  | _ => if s then neg_zero else zero
  end.

(** [round(x, ndigits)] for [0 <= ndigits]: the exact value of [x] is
    rounded to [ndigits] decimals, ties to even, and the decimal is read
    back as a float; zeros, infinities and NaN round to themselves. *)
Definition round (x : float) (ndigits : Z) : float :=
  match Prim2SF x with
  | S754_finite s m e =>
      let p := (10 ^ ndigits)%Z in
      let n := if (0 <=? e)%Z then (Z.pos m * 2 ^ e * p)%Z
               else div_half_even (Z.pos m * p) (2 ^ (- e)) in
      of_decimal s n ndigits
  | _ => x
  end.

(** [reduce(lambda a, b: a + b, xs, 0)] on floats: the integer [0] the
    accumulation starts from enters the first addition as [0.0], and is
    [0.0] here when [xs] is empty. *)
Definition reduce_add (xs : list float) : float :=
  foldl PrimFloat.add 0%float xs.

(** [sum(xs)] of floats: the items added from the left, starting at [0],
    each addition rounded (CPython from 3.12 on also carries a correction
    for these roundings, which is not modelled). *)
Definition sum (xs : list float) : float := reduce_add xs.

(** [max(xs, key=key)] of the non-empty [x0 :: xs]: the scan keeps the best
    element so far and replaces it when [key(x) > key(best)], so of the
    elements with the greatest key it returns the first. *)
Definition max_by {A} (key : A → float) (x0 : A) (xs : list A) : A :=
  foldl (fun best x => if (key best <? key x)%float then x else best) x0 xs.

(** [min(xs, key=key)] of the non-empty [x0 :: xs]: the best so far is
    replaced when [key(x) < key(best)]. *)
Definition min_by {A} (key : A → float) (x0 : A) (xs : list A) : A :=
  foldl (fun best x => if (key x <? key best)%float then x else best) x0 xs.

(** ** Generator expressions *)

(** [any(test(x) for x in xs)]: stops at the first true test. *)
Fixpoint any {A} (test : A → result bool) (xs : list A) : result bool :=
  match xs with
  | [] => OK false
  | x :: rest => b ← test x; if b : bool then OK true else any test rest
  end.

(** [next((x for x in xs if test(x)), None)] *)
Fixpoint next_if {A} (test : A → result bool) (xs : list A) : result (option A) :=
  match xs with
  | [] => OK None
  | x :: rest => b ← test x; if b : bool then OK (Some x) else next_if test rest
  end.

(** [[x for x in xs if test(x)]] *)
Fixpoint list_if {A} (test : A → result bool) (xs : list A) : result (list A) :=
  match xs with
  | [] => OK []
  | x :: rest =>
      b ← test x; ys ← list_if test rest;
      OK (if b : bool then x :: ys else ys)
  end.

(** [[f(x) for x in xs]] *)
Fixpoint list_for {A B} (f : A → result B) (xs : list A) : result (list B) :=
  match xs with
  | [] => OK []
  | x :: rest => y ← f x; ys ← list_for f rest; OK (y :: ys)
  end.

End Py.

Import Py (value, VStr, VInt, VFloat).

Abbreviation dict := (gmap string value).

(** * Decorators *)

(** The loop of [validar_entrada] over [args[1:]]. *)
Fixpoint revisar (args : list value) : result unit :=
  match args with
  | [] => OK tt
  | arg :: rest =>
      match arg with
      | VStr s =>
          match Py.strip s with
          | [] => Raise (ValueError CamposVacios)
          | _ :: _ => revisar rest
          end
      | VInt n =>
          if (n <? 0)%Z then Raise (ValueError ValoresNegativos) else revisar rest
      | VFloat x =>
          if (x <? 0)%float then Raise (ValueError ValoresNegativos) else revisar rest
      end
  end.

(** [validar_entrada(func)].  [args] are the positional arguments after
    [self], that is [args[1:]] of the wrapper; keyword arguments are handed
    to [func] as they come. *)
Definition validar_entrada {A} (func : list value → dict → result A)
    (args : list value) (kwargs : dict) : result A :=
  _ ← revisar args; func args kwargs.

(** [log_operacion(func)]: prints before and after the call, and returns
    what [func] returns. *)
Definition log_operacion {A} (func : A) : A := func.

(** * Models *)

Module Empleado.

Record t := mk {
  cedula : Py.str;
  nombre : Py.str;
  sueldo : float;
  departamento : Py.str;
  cargo : Py.str
}.

Definition params : list string :=
  ["cedula"; "nombre"; "sueldo"; "departamento"; "cargo"].

(** The body of [__init__]: the five assignments. *)
Definition init (args : list value) (kwargs : dict) : result t :=
  vs ← Py.bind params args kwargs;
  match vs with
  | [VStr c; VStr n; VFloat s; VStr d; VStr g] => OK (mk c n s d g)
  | _ => Raise IllTyped
  end.

(** [@validar_entrada def __init__(self, cedula, nombre, sueldo,
    departamento, cargo)]: a call of [Empleado] with positional arguments
    [args] and keyword arguments [kwargs]. *)
Definition __init__ : list value → dict → result t :=
  validar_entrada init.

(** [Empleado(cedula, nombre, sueldo, departamento, cargo)] *)
Definition nuevo (c n : Py.str) (s : float) (d g : Py.str) : result t :=
  __init__ [VStr c; VStr n; VFloat s; VStr d; VStr g] ∅.

(** [self.__dict__] *)
Definition __dict__ (self : t) : dict :=
  <["cedula" := VStr (cedula self)]>
  (<["nombre" := VStr (nombre self)]>
  (<["sueldo" := VFloat (sueldo self)]>
  (<["departamento" := VStr (departamento self)]>
  (<["cargo" := VStr (cargo self)]> ∅)))).

(** [self == other], as [@dataclass] defines it: the fields compared in
    order. *)
Definition __eq__ (self other : t) : bool :=
  bool_decide (cedula self = cedula other)
  && bool_decide (nombre self = nombre other)
  && (sueldo self =? sueldo other)%float
  && bool_decide (departamento self = departamento other)
  && bool_decide (cargo self = cargo other).

End Empleado.

Module DetalleNomina.

Record t := mk {
  id : Z;
  empleado : Empleado.t;
  sueldo : float;
  bono : float;
  tot_ing : float;
  iess : float;
  prestamo : float;
  tot_des : float;
  neto : float
}.

Definition __init__ (id : Z) (empleado : Empleado.t)
    (sueldo bono prestamo : float) : t :=
  let tot_ing := (sueldo + bono)%float in
  let iess := Py.round (sueldo * 0.0945)%float 2 in
  let tot_des := (iess + prestamo)%float in
  let neto := (tot_ing - tot_des)%float in
  mk id empleado sueldo bono tot_ing iess prestamo tot_des neto.

End DetalleNomina.

Module Nomina.

Definition BONO : float := 50.0%float.
Definition PRESTAMO : float := 20.0%float.

Record t := mk {
  id : Z;
  aniomes : Py.str;
  tot_ing : float;
  tot_des : float;
  neto : float;
  detalles : list DetalleNomina.t
}.

Definition __init__ (id : Z) (aniomes : Py.str) : t :=
  mk id aniomes 0.0%float 0.0%float 0.0%float [].

(** [self.detalles = detalles] *)
Definition set_detalles (self : t) (detalles : list DetalleNomina.t) : t :=
  mk (id self) (aniomes self) (tot_ing self) (tot_des self) (neto self) detalles.

Definition calcular_totales (self : t) : t :=
  let tot_ing := Py.sum (DetalleNomina.tot_ing <$> detalles self) in
  let tot_des := Py.sum (DetalleNomina.tot_des <$> detalles self) in
  let neto := (tot_ing - tot_des)%float in
  mk (id self) (aniomes self) tot_ing tot_des neto (detalles self).

Module Resumen.

Record t := mk { nomina : Nomina.t }.

Definition __init__ (nomina : Nomina.t) : t := mk nomina.

Definition generar_estadisticas (self : t) : dict :=
  match detalles (nomina self) with
  | [] =>
      <["total_empleados" := VInt 0]>
      (<["promedio_sueldo" := VInt 0]>
      (<["total_neto" := VInt 0]> ∅))
  | d0 :: ds =>
      let todos := d0 :: ds in
      let netos := DetalleNomina.neto <$> todos in
      let sueldos := DetalleNomina.sueldo <$> todos in
      let total_neto := Py.reduce_add netos in
      let promedio_sueldo :=
        (Py.reduce_add sueldos / Py.of_Z (Z.of_nat (length sueldos)))%float in
      let empleados_alto_sueldo :=
        List.filter (fun d => (1000 <? DetalleNomina.sueldo d)%float) todos in
      let mayor_neto := Py.max_by DetalleNomina.neto d0 ds in
      let menor_neto := Py.min_by DetalleNomina.neto d0 ds in
      <["total_empleados" := VInt (Z.of_nat (length todos))]>
      (<["total_neto_pagado" := VFloat total_neto]>
      (<["promedio_sueldos" := VFloat (Py.round promedio_sueldo 2)]>
      (<["empleados_alto_sueldo" := VInt (Z.of_nat (length empleados_alto_sueldo))]>
      (<["empleado_mayor_neto" :=
           VStr (Empleado.nombre (DetalleNomina.empleado mayor_neto))]>
      (<["empleado_menor_neto" :=
           VStr (Empleado.nombre (DetalleNomina.empleado menor_neto))]>
      (<["valor_mayor_neto" := VFloat (DetalleNomina.neto mayor_neto)]>
      (<["valor_menor_neto" := VFloat (DetalleNomina.neto menor_neto)]> ∅)))))))
  end.

End Resumen.

Definition obtener_resumen (self : t) : Resumen.t := Resumen.__init__ self.

End Nomina.

(** * Repositories *)

(** [IRepositorio]: the operations of a repository whose state is an [R].
    The two reading operations leave the state as it is. *)
Class IRepositorio (R : Type) := {
  crear : Empleado.t → R → result bool * R;
  obtener : Py.str → R → result (option Empleado.t);
  listar : R → result (list Empleado.t);
  actualizar : Py.str → Empleado.t → R → result bool * R;
  eliminar : Py.str → R → result bool * R
}.

Module RepositorioBase.

(** The file [self.archivo]: [None] when it does not exist, else the
    records it holds. *)
Definition archivo := option (list dict).

Definition _cargar_datos (a : archivo) : list dict :=
  match a with
  | None => []
  | Some datos => datos
  end.

Definition _guardar_datos (datos : list dict) : archivo := Some datos.

End RepositorioBase.

Module RepositorioEmpleados.
Import RepositorioBase.

Definition _serializar (empleado : Empleado.t) : dict :=
  Empleado.__dict__ empleado.

Definition _deserializar (data : dict) : result Empleado.t :=
  Empleado.__init__ [] data.

(** [emp["cedula"] == cedula] *)
Definition es (cedula : Py.str) (emp : dict) : result bool :=
  v ← Py.getitem emp "cedula"; OK (Py.eq_str v cedula).

(** [emp["cedula"] != cedula] *)
Definition no_es (cedula : Py.str) (emp : dict) : result bool :=
  v ← Py.getitem emp "cedula"; OK (negb (Py.eq_str v cedula)).

Definition crear (empleado : Empleado.t) (a : archivo) : result bool * archivo :=
  log_operacion (
    let datos := _cargar_datos a in
    match Py.any (es (Empleado.cedula empleado)) datos with
    | Raise e => (Raise e, a)
    | OK true => (Raise (ValueError (YaExiste (Empleado.cedula empleado))), a)
    | OK false => (OK true, _guardar_datos (datos ++ [_serializar empleado]))
    end).

Definition obtener (cedula : Py.str) (a : archivo) : result (option Empleado.t) :=
  let datos := _cargar_datos a in
  emp ← Py.next_if (es cedula) datos;
  match emp with
  | Some emp =>
      if decide (size emp = 0) then OK None
      else e ← _deserializar emp; OK (Some e)
  | None => OK None
  end.

Definition listar (a : archivo) : result (list Empleado.t) :=
  Py.list_for _deserializar (_cargar_datos a).

(** The scan of [actualizar]: the index [i] of the first record whose key
    is [cedula], counting from [i] at the head of [pendientes]. *)
Fixpoint buscar (cedula : Py.str) (i : nat) (pendientes : list dict)
    : result (option nat) :=
  match pendientes with
  | [] => OK None
  | emp :: resto =>
      b ← es cedula emp;
      if b : bool then OK (Some i) else buscar cedula (S i) resto
  end.

Definition actualizar (cedula : Py.str) (empleado : Empleado.t) (a : archivo)
    : result bool * archivo :=
  log_operacion (
    let datos := _cargar_datos a in
    match buscar cedula 0 datos with
    | Raise e => (Raise e, a)
    | OK (Some i) => (OK true, _guardar_datos (<[i := _serializar empleado]> datos))
    | OK None => (OK false, a)
    end).

Definition eliminar (cedula : Py.str) (a : archivo) : result bool * archivo :=
  log_operacion (
    let datos := _cargar_datos a in
    match Py.list_if (no_es cedula) datos with
    | Raise e => (Raise e, a)
    | OK filtrados =>
        if decide (length filtrados < length datos)
        then (OK true, _guardar_datos filtrados)
        else (OK false, a)
    end).

End RepositorioEmpleados.

#[global] Instance RepositorioEmpleados_IRepositorio
    : IRepositorio RepositorioBase.archivo := {|
  crear := RepositorioEmpleados.crear;
  obtener := RepositorioEmpleados.obtener;
  listar := RepositorioEmpleados.listar;
  actualizar := RepositorioEmpleados.actualizar;
  eliminar := RepositorioEmpleados.eliminar
|}.

(** * JSON documents and the payroll files *)

(** What [json.dump] is given for a payroll: strings, numbers, lists and
    objects. *)
#[warnings="-register-all"]
Inductive json :=
| JStr (s : Py.str)
| JInt (n : Z)
| JFloat (x : float)
| JList (l : list json)
| JDict (d : gmap string json).

(** The payroll files, by name: what each file written holds.  The
    names are those of a directory that tells any two names apart. *)
Abbreviation archivos := (gmap (list N) json).

(** How writing a file ends: done, or with the error [open] raises when
    the operating system does not open a file of that name for writing,
    which is none of the exceptions of the program. *)
Inductive io (A : Type) :=
| Hecho (a : A)
| OSError.
Arguments Hecho {A} a.
Arguments OSError {A}.

(** * Services *)

Module ServicioNomina.
Section ServicioNomina.
Context {R : Type} `{IRepositorio R}.

Definition _calcular_detalle_empleado (empleado : Empleado.t) (id_detalle : Z)
  : DetalleNomina.t :=
DetalleNomina.__init__ id_detalle empleado (Empleado.sueldo empleado)
  Nomina.BONO Nomina.PRESTAMO.

Definition generar_nomina_mensual (aniomes : Py.str) (repo : R) : result Nomina.t :=
log_operacion (
  empleados ← listar repo;
  match empleados with
  | [] => Raise (ValueError NoHayEmpleados)
  | _ :: _ =>
      let nomina := Nomina.__init__ 1 aniomes in
      let nomina := Nomina.set_detalles nomina
        (imap (fun i emp => _calcular_detalle_empleado emp (Z.of_nat i + 1))
           empleados) in
      OK (Nomina.calcular_totales nomina)
  end).

(** The name [f"nomina_{nomina.aniomes}.json"] of the file of a period. *)
Definition nombre_archivo (aniomes : Py.str) : Py.str :=
  Py.lit "nomina_" ++ aniomes ++ Py.lit ".json".

(** The entry of ["detalles"] for one line item. *)
Definition detalle_json (d : DetalleNomina.t) : json :=
  JDict
    (<["id" := JInt (DetalleNomina.id d)]>
    (<["empleado" := JStr (Empleado.nombre (DetalleNomina.empleado d))]>
    (<["cedula" := JStr (Empleado.cedula (DetalleNomina.empleado d))]>
    (<["sueldo" := JFloat (DetalleNomina.sueldo d)]>
    (<["bono" := JFloat (DetalleNomina.bono d)]>
    (<["tot_ing" := JFloat (DetalleNomina.tot_ing d)]>
    (<["iess" := JFloat (DetalleNomina.iess d)]>
    (<["prestamo" := JFloat (DetalleNomina.prestamo d)]>
    (<["tot_des" := JFloat (DetalleNomina.tot_des d)]>
    (<["neto" := JFloat (DetalleNomina.neto d)]> ∅)))))))))).

(** The dictionary [data] that [guardar_nomina] writes. *)
Definition datos_nomina (nomina : Nomina.t) : json :=
  JDict
    (<["id" := JInt (Nomina.id nomina)]>
    (<["aniomes" := JStr (Nomina.aniomes nomina)]>
    (<["tot_ing" := JFloat (Nomina.tot_ing nomina)]>
    (<["tot_des" := JFloat (Nomina.tot_des nomina)]>
    (<["neto" := JFloat (Nomina.neto nomina)]>
    (<["detalles" := JList (detalle_json <$> Nomina.detalles nomina)]> ∅)))))).

(** [guardar_nomina(nomina)]: [abre] is what the operating system answers
    to [open(archivo, 'w')].  When the file opens it holds [data]
    afterwards, whatever it held; else nothing is written. *)
Definition guardar_nomina (abre : Py.str → bool) (nomina : Nomina.t) (fs : archivos)
    : io archivos :=
  let archivo := nombre_archivo (Nomina.aniomes nomina) in
  if abre archivo then Hecho (<[archivo := datos_nomina nomina]> fs) else OSError.

End ServicioNomina.
End ServicioNomina.

(** * The manager *)

Module GestorEmpleados.
Import RepositorioBase.

Definition crear_empleado (cedula nombre : Py.str) (sueldo : float)
    (departamento cargo : Py.str) (a : archivo) : result bool * archivo :=
  match Empleado.nuevo cedula nombre sueldo departamento cargo with
  | OK e => RepositorioEmpleados.crear e a
  | Raise e => (Raise e, a)
  end.

Definition obtener_empleado (cedula : Py.str) (a : archivo) :=
  RepositorioEmpleados.obtener cedula a.

Definition listar_empleados (a : archivo) := RepositorioEmpleados.listar a.

Definition actualizar_empleado (cedula nombre : Py.str) (sueldo : float)
    (departamento cargo : Py.str) (a : archivo) : result bool * archivo :=
  match Empleado.nuevo cedula nombre sueldo departamento cargo with
  | OK e => RepositorioEmpleados.actualizar cedula e a
  | Raise e => (Raise e, a)
  end.

Definition eliminar_empleado (cedula : Py.str) (a : archivo) :=
  RepositorioEmpleados.eliminar cedula a.


(** [procesar_nomina_completa(aniomes)]: the dictionary returned is the pair
    of its two entries, the payroll and the statistics. *)
Definition procesar_nomina_completa (abre : Py.str → bool) (aniomes : Py.str)
    (a : archivo) (fs : archivos) : io (result (Nomina.t * dict)) * archivos :=
  match ServicioNomina.generar_nomina_mensual aniomes a with
  | OK nomina =>
      match ServicioNomina.guardar_nomina abre nomina fs with
      | Hecho fs =>
          (Hecho (OK (nomina,
                      Nomina.Resumen.generar_estadisticas
                        (Nomina.obtener_resumen nomina))), fs)
      | OSError => (OSError, fs)
      end
  | Raise e => (Hecho (Raise e), fs)
  end.
End GestorEmpleados.

(** * Vocabulary of the properties *)

(** [n] is the integer nearest to [a / b], the even one of the two when
    [a / b] lies halfway between them. *)
Definition nearest_even (a b n : Z) : Prop :=
  (Z.abs (2 * a - 2 * n * b) <= b)%Z
  ∧ ((Z.abs (2 * a - 2 * n * b) = b)%Z → Z.even n = true).

(** Whether the stored record [emp] has a key field, equal to [cedula]. *)
Definition tiene_clave (cedula : Py.str) (emp : dict) : bool :=
  match emp !! "cedula" with
  | Some v => Py.eq_str v cedula
  | None => false
  end.

(** Whether some record of [datos] has key [cedula]. *)
Definition presente (cedula : Py.str) (datos : list dict) : bool :=
  existsb (tiene_clave cedula) datos.

(** The number of records of [datos] with key [cedula]. *)
Definition cuenta (cedula : Py.str) (datos : list dict) : nat :=
  length (List.filter (tiene_clave cedula) datos).

(** The records of [datos] whose key is not [cedula], in their order. *)
Definition sin_clave (cedula : Py.str) (datos : list dict) : list dict :=
  List.filter (fun emp => negb (tiene_clave cedula emp)) datos.

(** Every stored record has a key field, as the records of the file do. *)
Definition con_cedula (datos : list dict) : Prop :=
  Forall (fun emp : dict => is_Some (emp !! "cedula")) datos.

(** What the specification asks of an employee: every string field
    non-empty after trimming, and a salary that is [>= 0]. *)
Definition valido (e : Empleado.t) : Prop :=
  Py.strip (Empleado.cedula e) ≠ []
  ∧ Py.strip (Empleado.nombre e) ≠ []
  ∧ (0 <=? Empleado.sueldo e)%float = true
  ∧ Py.strip (Empleado.departamento e) ≠ []
  ∧ Py.strip (Empleado.cargo e) ≠ [].

(** The line items [generar_nomina_mensual] computes for the employees
    listed. *)
Definition detalles_de (empleados : list Empleado.t) : list DetalleNomina.t :=
  imap (fun i emp => ServicioNomina._calcular_detalle_empleado emp (Z.of_nat i + 1))
    empleados.



(** All of the string is whitespace (so also the empty string). *)
Definition en_blanco (s : Py.str) : bool := forallb Py.isspace s.

(** What [validar_entrada] lets through, of the five fields passed by
    position: no string all whitespace, and a salary that is not [< 0]. *)
Definition aceptado (e : Empleado.t) : bool :=
  negb (en_blanco (Empleado.cedula e))
  && negb (en_blanco (Empleado.nombre e))
  && negb (Empleado.sueldo e <? 0)%float
  && negb (en_blanco (Empleado.departamento e))
  && negb (en_blanco (Empleado.cargo e)).

(** A file in order: every record is the serialized form of an employee
    that validation accepts, and no key is held twice. *)
Definition en_regla (a : RepositorioBase.archivo) : Prop :=
  Forall (fun emp : dict => ∃ e, aceptado e = true ∧ emp = RepositorioEmpleados._serializar e)
    (RepositorioBase._cargar_datos a)
  ∧ ∀ c, cuenta c (RepositorioBase._cargar_datos a) ≤ 1.

(** The files the manager makes, starting without a file. *)
Inductive alcanzable : RepositorioBase.archivo → Prop :=
| alcanzable_inicio : alcanzable None
| alcanzable_crear c n s d g a :
    alcanzable a → alcanzable (GestorEmpleados.crear_empleado c n s d g a).2
| alcanzable_actualizar c n s d g a :
    alcanzable a → alcanzable (GestorEmpleados.actualizar_empleado c n s d g a).2
| alcanzable_eliminar c a :
    alcanzable a → alcanzable (GestorEmpleados.eliminar_empleado c a).2.

(** The keys of the summary of a payroll without line items, and with. *)
Definition claves_vacia : gset string :=
  list_to_set ["total_empleados"; "promedio_sueldo"; "total_neto"].

Definition claves_llena : gset string :=
  list_to_set ["total_empleados"; "total_neto_pagado"; "promedio_sueldos";
               "empleados_alto_sueldo"; "empleado_mayor_neto"; "empleado_menor_neto";
               "valor_mayor_neto"; "valor_menor_neto"].

(** ** Two employees, and files the repository itself produces *)

Definition ana : Empleado.t :=
  Empleado.mk (Py.lit "0101") (Py.lit "Ana") 800.0 (Py.lit "Ventas") (Py.lit "Cajera").

Definition beto : Empleado.t :=
  Empleado.mk (Py.lit "0202") (Py.lit "Beto") 1200.0 (Py.lit "Bodega") (Py.lit "Jefe").

(** The file after [crear(ana)] and [crear(beto)] on a repository with no
    file. *)
Definition archivo_ab : RepositorioBase.archivo :=
  (RepositorioEmpleados.crear beto (RepositorioEmpleados.crear ana None).2).2.

(** The file after [actualizar("0202", ana)] on [archivo_ab]: the record of
    key 0202 is replaced by one of key 0101, which the file now holds twice. *)
Definition archivo_repetido : RepositorioBase.archivo :=
  (RepositorioEmpleados.actualizar (Py.lit "0202") ana archivo_ab).2.

(** The payroll of the two employees of [archivo_ab]. *)
Definition nomina_ab : Nomina.t :=
  Nomina.calcular_totales
    (Nomina.set_detalles (Nomina.__init__ 1 (Py.lit "202404")) (detalles_de [ana; beto])).

(** * Properties *)

(** ** Rounding and the line item *)


Lemma nearest_even_unique (a b n n' : Z) :
  (0 < b)%Z → nearest_even a b n → nearest_even a b n' → n = n'.
Proof.
  intros Hb [H1 E1] [H2 E2].
  assert (Z.abs (n - n') <= 1)%Z as Hd by nia.
  destruct (decide (n = n')) as [|Hne]; [done | exfalso].
  assert (n' = n + 1 ∨ n' = n - 1)%Z as Hc by lia.
  assert (Z.abs (2 * a - 2 * n * b) = b ∧ Z.abs (2 * a - 2 * n' * b) = b)%Z
    as [F1 F2] by (destruct Hc; subst n'; nia).
  specialize (E1 F1). specialize (E2 F2).
  destruct Hc; subst n'.
  - rewrite Z.even_add, E1 in E2. discriminate.
  - rewrite Z.even_sub, E1 in E2. discriminate.
Qed.


(** Ties go to the even hundredth, and only exact ties: 2.675 is a float
    just below the decimal 2.675. *)
Example round_ejemplos :
  Py.round 0.125 2 = 0.12%float
  ∧ Py.round 0.375 2 = 0.38%float
  ∧ Py.round (-0.125) 2 = (-0.12)%float
  ∧ Py.round 2.675 2 = 2.67%float
  ∧ Py.round 75.60000000000001 2 = 75.6%float.
Proof. repeat split. Qed.


(** The service computes the line item of an employee from the employee's
    salary and the two constants of [Nomina]. *)
Lemma calcular_detalle_empleado_eq (emp : Empleado.t) (i : Z) :
  ServicioNomina._calcular_detalle_empleado emp i
  = DetalleNomina.__init__ i emp (Empleado.sueldo emp) 50 20.
Proof. reflexivity. Qed.

(** The two employees of the specification's scenario. *)
Example detalle_ana :
  let d := ServicioNomina._calcular_detalle_empleado ana 1 in
  DetalleNomina.tot_ing d = 850.0%float
  ∧ DetalleNomina.iess d = 75.6%float
  ∧ DetalleNomina.tot_des d = 95.6%float
  ∧ DetalleNomina.neto d = 754.4%float.
Proof. repeat split. Qed.

Example detalle_beto :
  let d := ServicioNomina._calcular_detalle_empleado beto 2 in
  DetalleNomina.tot_ing d = 1250.0%float
  ∧ DetalleNomina.iess d = 113.4%float
  ∧ DetalleNomina.tot_des d = 133.4%float
  ∧ DetalleNomina.neto d = 1116.6%float.
Proof. repeat split. Qed.

(** The rounding is that of the float product: for a salary of 10 the
    product is the float just above 0.945, which rounds up. *)
Example detalle_sueldo_10 (emp : Empleado.t) :
  (10 * 0.0945 = 0.9450000000000001)%float
  ∧ DetalleNomina.iess (DetalleNomina.__init__ 1 emp 10 50 20) = 0.95%float.
Proof. split; reflexivity. Qed.

(** ** Keys of the stored records *)

Lemma tiene_clave_spec (cedula : Py.str) (emp : dict) :
  tiene_clave cedula emp = true ↔ emp !! "cedula" = Some (VStr cedula).
Proof.
  unfold tiene_clave. destruct (emp !! "cedula") as [[t | n | x] |]; simpl;
    try (split; intros; discriminate).
  rewrite bool_decide_eq_true. split; intros; congruence.
Qed.

Lemma presente_spec (cedula : Py.str) (datos : list dict) :
  presente cedula datos = true
  ↔ ∃ emp, emp ∈ datos ∧ emp !! "cedula" = Some (VStr cedula).
Proof.
  unfold presente. rewrite existsb_exists. split.
  - intros (emp & Hin & Hk). exists emp.
    split; [by apply list_elem_of_In | by apply tiene_clave_spec].
  - intros (emp & Hin & Hk). exists emp.
    split; [by apply list_elem_of_In | by apply tiene_clave_spec].
Qed.

Lemma presente_cuenta (cedula : Py.str) (datos : list dict) :
  presente cedula datos = true ↔ 0 < cuenta cedula datos.
Proof.
  unfold presente, cuenta. induction datos as [| emp datos IH]; simpl.
  - split; [discriminate | lia].
  - destruct (tiene_clave cedula emp); simpl; [split; [lia | done] | done].
Qed.


Lemma sin_clave_length (cedula : Py.str) (datos : list dict) :
  length (sin_clave cedula datos) + cuenta cedula datos = length datos.
Proof.
  unfold sin_clave, cuenta. induction datos as [| emp datos IH]; simpl; [done |].
  destruct (tiene_clave cedula emp); simpl; lia.
Qed.

Lemma sin_clave_sublist (cedula : Py.str) (datos : list dict) :
  sublist (sin_clave cedula datos) datos.
Proof.
  unfold sin_clave. induction datos as [| emp datos IH]; simpl; [constructor |].
  destruct (negb (tiene_clave cedula emp)); by constructor.
Qed.

Lemma sin_clave_ausente (cedula : Py.str) (datos : list dict) :
  presente cedula datos = false → sin_clave cedula datos = datos.
Proof.
  unfold presente, sin_clave. induction datos as [| emp datos IH]; simpl; [done |].
  destruct (tiene_clave cedula emp); simpl; [done |].
  intros H. by rewrite IH.
Qed.

Lemma presente_sin_clave (cedula : Py.str) (datos : list dict) :
  presente cedula (sin_clave cedula datos) = false.
Proof.
  unfold presente, sin_clave. induction datos as [| emp datos IH]; simpl; [done |].
  destruct (tiene_clave cedula emp) eqn:Hk; simpl; [done |]. by rewrite Hk.
Qed.

Lemma tiene_clave_otra (cedula otra : Py.str) (emp : dict) :
  otra ≠ cedula → tiene_clave cedula emp = true → tiene_clave otra emp = false.
Proof.
  intros Hne Hk. apply tiene_clave_spec in Hk.
  destruct (tiene_clave otra emp) eqn:Ho; [| done].
  apply tiene_clave_spec in Ho. congruence.
Qed.

Lemma cuenta_sin_clave (cedula otra : Py.str) (datos : list dict) :
  otra ≠ cedula → cuenta otra (sin_clave cedula datos) = cuenta otra datos.
Proof.
  intros Hne. unfold cuenta, sin_clave.
  induction datos as [| emp datos IH]; simpl; [done |].
  destruct (tiene_clave cedula emp) eqn:Hk; simpl.
  - by rewrite (tiene_clave_otra _ _ _ Hne Hk).
  - destruct (tiene_clave otra emp); simpl; by rewrite IH.
Qed.

(** ** The scans of the repository *)

Section Repositorio.
Import RepositorioBase RepositorioEmpleados.

Lemma es_con_cedula (cedula : Py.str) (emp : dict) :
  is_Some (emp !! "cedula") → es cedula emp = OK (tiene_clave cedula emp).
Proof.
  intros [v Hv]. unfold es, Py.getitem, tiene_clave. by rewrite Hv.
Qed.

Lemma no_es_con_cedula (cedula : Py.str) (emp : dict) :
  is_Some (emp !! "cedula") → no_es cedula emp = OK (negb (tiene_clave cedula emp)).
Proof.
  intros [v Hv]. unfold no_es, Py.getitem, tiene_clave. by rewrite Hv.
Qed.

Lemma any_es (cedula : Py.str) (datos : list dict) :
  con_cedula datos → Py.any (es cedula) datos = OK (presente cedula datos).
Proof.
  unfold presente. induction 1 as [| emp datos Hemp _ IH]; simpl; [done |].
  rewrite (es_con_cedula _ _ Hemp). simpl.
  destruct (tiene_clave cedula emp); simpl; [done | exact IH].
Qed.

Lemma list_if_no_es (cedula : Py.str) (datos : list dict) :
  con_cedula datos → Py.list_if (no_es cedula) datos = OK (sin_clave cedula datos).
Proof.
  unfold sin_clave. induction 1 as [| emp datos Hemp _ IH]; simpl; [done |].
  rewrite (no_es_con_cedula _ _ Hemp). simpl. rewrite IH. simpl.
  by destruct (tiene_clave cedula emp).
Qed.


(** ** Creating, updating, deleting *)

Lemma con_cedula_serializar (e : Empleado.t) (datos : list dict) :
  con_cedula datos → con_cedula (datos ++ [_serializar e]).
Proof.
  intros H. apply Forall_app. split; [done |].
  repeat constructor. by eexists.
Qed.

Lemma tiene_clave_serializar (e : Empleado.t) :
  tiene_clave (Empleado.cedula e) (_serializar e) = true.
Proof. apply tiene_clave_spec. by destruct e. Qed.



Lemma con_cedula_archivo_ab : con_cedula (_cargar_datos archivo_ab).
Proof. repeat constructor; eexists; reflexivity. Defined.

(** [archivo_repetido], a file three calls of the repository produce from
    nothing, holds the key 0101 twice. *)
Lemma archivo_repetido_eq :
  archivo_repetido = Some [_serializar ana; _serializar ana]
  ∧ cuenta (Py.lit "0101") (_cargar_datos archivo_repetido) = 2.
Proof. split; reflexivity. Qed.




(** A record without the key field, which the program never writes, makes
    the scan of [crear] raise [KeyError]. *)
Example crear_registro_sin_cedula :
  crear ana (Some [∅]) = (Raise (KeyError "cedula"), Some [∅]).
Proof. reflexivity. Qed.



(** On [archivo_ab] the update of key 0202 replaces the second record. *)
Example actualizar_ejemplo :
  actualizar (Py.lit "0202") ana archivo_ab
  = (OK true, Some [_serializar ana; _serializar ana]).
Proof. reflexivity. Qed.

(** C6, as stated, fails on a file that holds a key twice: [eliminar]
    removes both records, not exactly one. *)
Lemma eliminar_clave_repetida :
  presente (Py.lit "0101") (_cargar_datos archivo_repetido) = true
  ∧ (eliminar (Py.lit "0101") archivo_repetido).1 = OK true
  ∧ length (_cargar_datos (eliminar (Py.lit "0101") archivo_repetido).2) + 1
    ≠ length (_cargar_datos archivo_repetido).
Proof. split; [reflexivity |]. split; [reflexivity |]. vm_compute. lia. Qed.

(** C6, amended.  On a file whose records all have a key field: [eliminar]
    on a key no record has returns [False] and leaves the file as it is; on
    a key some record has it returns [True] and rewrites the file without
    the records of that key, all of them, the others staying in their
    order; that is one record less when the key had one record. *)
Theorem eliminar_spec (cedula : Py.str) (a : archivo) :
  con_cedula (_cargar_datos a) →
  (presente cedula (_cargar_datos a) = false →
     eliminar cedula a = (OK false, a))
  ∧ (presente cedula (_cargar_datos a) = true →
     eliminar cedula a = (OK true, Some (sin_clave cedula (_cargar_datos a)))
     ∧ presente cedula (sin_clave cedula (_cargar_datos a)) = false
     ∧ sublist (sin_clave cedula (_cargar_datos a)) (_cargar_datos a)
     ∧ (∀ otra, otra ≠ cedula →
          cuenta otra (sin_clave cedula (_cargar_datos a))
          = cuenta otra (_cargar_datos a))
     ∧ length (sin_clave cedula (_cargar_datos a)) + cuenta cedula (_cargar_datos a)
       = length (_cargar_datos a)).
Proof.
  intros Hwf. unfold eliminar, log_operacion.
  rewrite (list_if_no_es _ _ Hwf).
  pose proof (sin_clave_length cedula (_cargar_datos a)) as Hlen.
  split; intros Hp.
  - rewrite (sin_clave_ausente _ _ Hp). case_decide; [lia | done].
  - pose proof (proj1 (presente_cuenta _ _) Hp) as Hc.
    case_decide; [| lia].
    split; [done |].
    split; [apply presente_sin_clave |].
    split; [apply sin_clave_sublist |].
    split; [intros otra Hne; by apply cuenta_sin_clave | done].
Qed.

Lemma eliminar_spec_witness :
  con_cedula (_cargar_datos archivo_ab)
  ∧ presente (Py.lit "0101") (_cargar_datos archivo_ab) = true
  ∧ eliminar (Py.lit "0101") archivo_ab = (OK true, Some [_serializar beto]).
Proof.
  split; [exact con_cedula_archivo_ab |]. split; [reflexivity |].
  apply (eliminar_spec (Py.lit "0101") archivo_ab con_cedula_archivo_ab).
  reflexivity.
Defined.

End Repositorio.

(** ** Validation at construction *)

(** A string is empty after trimming exactly when all of it is whitespace. *)
Lemma lstrip_nil (s : Py.str) :
  Py.lstrip s = [] ↔ forallb Py.isspace s = true.
Proof.
  induction s as [| c s IH]; simpl; [done |].
  destruct (Py.isspace c); simpl; [done | split; discriminate].
Qed.

Lemma lstrip_isspace (s : Py.str) :
  forallb Py.isspace (Py.lstrip s) = true → forallb Py.isspace s = true.
Proof.
  induction s as [| c s IH]; simpl; [done |].
  destruct (Py.isspace c) eqn:Hc; simpl; [done |]. by rewrite Hc.
Qed.

Lemma forallb_reverse {A} (f : A → bool) (l : list A) :
  forallb f (reverse l) = forallb f l.
Proof.
  induction l as [| x l IH]; [done |].
  rewrite reverse_cons, forallb_app, IH. simpl. destruct (f x), (forallb f l); done.
Qed.

Lemma strip_nil (s : Py.str) :
  Py.strip s = [] ↔ forallb Py.isspace s = true.
Proof.
  unfold Py.strip, Py.rstrip. split.
  - intros H. apply (f_equal reverse) in H. rewrite reverse_involutive in H.
    change (reverse []) with (@nil N) in H.
    apply lstrip_nil in H. rewrite forallb_reverse in H. by apply lstrip_isspace.
  - intros H. apply lstrip_nil in H. by rewrite H.
Qed.

(** A float that is [>= 0] is not [< 0], and equals itself. *)
Lemma leb_0_ltb (x : float) : (0 <=? x)%float = true → (x <? 0)%float = false.
Proof.
  rewrite FloatAxioms.leb_spec, FloatAxioms.ltb_spec.
  change (Prim2SF 0) with (S754_zero false).
  by destruct (Prim2SF x) as [[|] | [|] | | [|] m e].
Qed.

Lemma SFeqb_refl (x : spec_float) : x ≠ S754_nan → SFeqb x x = true.
Proof.
  destruct x as [[|] | [|] | | [|] m e]; try done; intros _;
    unfold SFeqb, SFcompare; rewrite Z.compare_refl, Pos.compare_cont_refl; done.
Qed.

Lemma leb_0_eqb (x : float) : (0 <=? x)%float = true → (x =? x)%float = true.
Proof.
  rewrite FloatAxioms.leb_spec, FloatAxioms.eqb_spec.
  change (Prim2SF 0) with (S754_zero false).
  intros H. apply SFeqb_refl. intros Hn. by rewrite Hn in H.
Qed.

(** Positional construction validates: it succeeds on valid fields, *)
Lemma nuevo_valido (e : Empleado.t) :
  valido e →
  Empleado.nuevo (Empleado.cedula e) (Empleado.nombre e) (Empleado.sueldo e)
    (Empleado.departamento e) (Empleado.cargo e) = OK e.
Proof.
  destruct e as [c n s d g]. intros (Hc & Hn & Hs & Hd & Hg). simpl in *.
  apply leb_0_ltb in Hs.
  unfold Empleado.nuevo, Empleado.__init__, validar_entrada. cbn [revisar].
  destruct (Py.strip c); [done |]. destruct (Py.strip n); [done |]. rewrite Hs.
  destruct (Py.strip d); [done |]. destruct (Py.strip g); [done |]. reflexivity.
Qed.

(** and raises a validation [ValueError], building no employee, when a
    string field is empty after trimming or the salary is negative. *)
Lemma nuevo_invalido (c n : Py.str) (s : float) (d g : Py.str) :
  Py.strip c = [] ∨ Py.strip n = [] ∨ (s <? 0)%float = true
  ∨ Py.strip d = [] ∨ Py.strip g = [] →
  Empleado.nuevo c n s d g = Raise (ValueError CamposVacios)
  ∨ Empleado.nuevo c n s d g = Raise (ValueError ValoresNegativos).
Proof.
  intros H. unfold Empleado.nuevo, Empleado.__init__, validar_entrada. cbn [revisar].
  destruct (Py.strip c); [by left |]. destruct (Py.strip n); [by left |].
  destruct (s <? 0)%float; [by right |].
  destruct (Py.strip d); [by left |]. destruct (Py.strip g); [by left |].
  destruct H as [H | [H | [H | [H | H]]]]; discriminate.
Qed.

(** The manager builds the employee by position, so it validates before it
    touches the file. *)
Lemma crear_empleado_invalido (c n : Py.str) (s : float) (d g : Py.str)
    (a : RepositorioBase.archivo) :
  Py.strip c = [] ∨ Py.strip n = [] ∨ (s <? 0)%float = true
  ∨ Py.strip d = [] ∨ Py.strip g = [] →
  ∃ m, GestorEmpleados.crear_empleado c n s d g a = (Raise (ValueError m), a)
       ∧ (m = CamposVacios ∨ m = ValoresNegativos).
Proof.
  intros H. unfold GestorEmpleados.crear_empleado.
  destruct (nuevo_invalido c n s d g H) as [-> | ->]; eauto.
Qed.

(** C7 fails on the code: a call that passes the fields by keyword, as
    [_deserializar] does, is not validated.  With a name that is blank and
    a negative salary, passed by keyword, construction returns the employee;
    the same values passed by position raise. *)
Theorem empleado_por_nombre_no_valida :
  let kwargs : dict :=
    <["cedula" := VStr (Py.lit "0303")]>
    (<["nombre" := VStr (Py.lit "   ")]>
    (<["sueldo" := VFloat (-1)%float]>
    (<["departamento" := VStr (Py.lit "Ventas")]>
    (<["cargo" := VStr (Py.lit "Cajero")]> ∅)))) in
  Py.strip (Py.lit "   ") = []
  ∧ (-1 <? 0)%float = true
  ∧ Empleado.__init__ [] kwargs
    = OK (Empleado.mk (Py.lit "0303") (Py.lit "   ") (-1)%float
            (Py.lit "Ventas") (Py.lit "Cajero"))
  ∧ Empleado.__init__
      [VStr (Py.lit "0303"); VStr (Py.lit "   "); VFloat (-1)%float;
       VStr (Py.lit "Ventas"); VStr (Py.lit "Cajero")] ∅
    = Raise (ValueError CamposVacios).
Proof. repeat split. Qed.

(** ** Records and employees *)

Lemma bind_raise (params : list string) (args : list value) (kwargs : dict) (e : exc) :
  Py.bind params args kwargs = Raise e → e = TypeError.
Proof.
  revert args kwargs. induction params as [| p params IH]; intros [| a args] kwargs; simpl.
  - case_decide; congruence.
  - congruence.
  - destruct (kwargs !! p); [| congruence].
    destruct (Py.bind params [] (delete p kwargs)) eqn:Hb; simpl; [congruence |].
    intros [= <-]. by eapply IH.
  - destruct (kwargs !! p); [congruence |].
    destruct (Py.bind params args kwargs) eqn:Hb; simpl; [congruence |].
    intros [= <-]. by eapply IH.
Qed.

(** Loading a record raises no [ValueError]: nothing is validated. *)
Lemma deserializar_raise (data : dict) (e : exc) :
  RepositorioEmpleados._deserializar data = Raise e → e = TypeError ∨ e = IllTyped.
Proof.
  change (RepositorioEmpleados._deserializar data) with (Empleado.init [] data).
  unfold Empleado.init.
  destruct (Py.bind Empleado.params [] data) as [vs | e'] eqn:Hb; simpl.
  - intros Hm. right. repeat case_match; congruence.
  - intros [= <-]. left. by eapply bind_raise.
Qed.

Lemma listar_raise (a : RepositorioBase.archivo) (e : exc) :
  RepositorioEmpleados.listar a = Raise e → e = TypeError ∨ e = IllTyped.
Proof.
  unfold RepositorioEmpleados.listar.
  induction (RepositorioBase._cargar_datos a) as [| data datos IH]; simpl; [congruence |].
  destruct (RepositorioEmpleados._deserializar data) as [emp | e'] eqn:Hd; simpl.
  - destruct (Py.list_for RepositorioEmpleados._deserializar datos); simpl; [congruence |].
    intros [= <-]. by apply IH.
  - intros [= <-]. by eapply deserializar_raise.
Qed.

(** A record with the five fields, of the annotated types, loads as the
    employee it holds, whatever the values. *)
Lemma deserializar_serializar (e : Empleado.t) :
  RepositorioEmpleados._deserializar (RepositorioEmpleados._serializar e) = OK e.
Proof. by destruct e. Qed.

(** C8. For a valid employee, deserializing its serialized form gives the
    employee back: the same fields, and equal to it by [==]. *)
Theorem serializar_ida_y_vuelta (e : Empleado.t) :
  valido e →
  ∃ e' : Empleado.t,
    RepositorioEmpleados._deserializar (RepositorioEmpleados._serializar e) = OK e'
    ∧ e' = e
    ∧ Empleado.__eq__ e' e = true.
Proof.
  intros (_ & _ & Hs & _ & _). exists e.
  split; [apply deserializar_serializar |]. split; [done |].
  unfold Empleado.__eq__. rewrite !bool_decide_eq_true_2 by done.
  by rewrite (leb_0_eqb _ Hs).
Qed.

Lemma valido_ana : valido ana.
Proof. repeat split; discriminate. Defined.

Lemma serializar_ida_y_vuelta_witness :
  valido ana
  ∧ ∃ e' : Empleado.t,
      RepositorioEmpleados._deserializar (RepositorioEmpleados._serializar ana) = OK e'
      ∧ e' = ana
      ∧ Empleado.__eq__ e' ana = true.
Proof. split; [exact valido_ana | exact (serializar_ida_y_vuelta ana valido_ana)]. Defined.

(** The employees created are the employees listed. *)
Example listar_archivo_ab :
  RepositorioEmpleados.listar archivo_ab = OK [ana; beto]
  ∧ RepositorioEmpleados.obtener (Py.lit "0202") archivo_ab = OK (Some beto)
  ∧ RepositorioEmpleados.obtener (Py.lit "0303") archivo_ab = OK None
  ∧ RepositorioEmpleados.listar None = OK [].
Proof. repeat split. Qed.

(** C10. Construction by keyword skips validation altogether: whatever the
    five values, of the annotated types, it returns the employee.  So a
    stored record with a blank key, empty strings and a negative salary,
    which the positional constructor rejects, is loaded by [_deserializar],
    and [listar] and [obtener] return it. *)
Theorem deserializar_no_valida :
  let data : dict :=
    <["cedula" := VStr (Py.lit "  ")]>
    (<["nombre" := VStr []]>
    (<["sueldo" := VFloat (-5)%float]>
    (<["departamento" := VStr []]>
    (<["cargo" := VStr []]> ∅)))) in
  let e := Empleado.mk (Py.lit "  ") [] (-5)%float [] [] in
  (∀ (c n : Py.str) (s : float) (d g : Py.str),
     Empleado.__init__ []
       (<["cedula" := VStr c]> (<["nombre" := VStr n]> (<["sueldo" := VFloat s]>
       (<["departamento" := VStr d]> (<["cargo" := VStr g]> ∅)))))
     = OK (Empleado.mk c n s d g))
  ∧ Py.strip (Empleado.cedula e) = []
  ∧ Py.strip (Empleado.nombre e) = []
  ∧ (Empleado.sueldo e <? 0)%float = true
  ∧ Empleado.nuevo (Py.lit "  ") [] (-5)%float [] [] = Raise (ValueError CamposVacios)
  ∧ RepositorioEmpleados._deserializar data = OK e
  ∧ RepositorioEmpleados.listar (Some [data]) = OK [e]
  ∧ RepositorioEmpleados.obtener (Py.lit "  ") (Some [data]) = OK (Some e).
Proof. repeat split. Qed.

(** ** Payroll generation *)

Section Generacion.
Import ServicioNomina.

Lemma detalles_de_id (empleados : list Empleado.t) :
  DetalleNomina.id <$> detalles_de empleados = Z.of_nat <$> seq 1 (length empleados).
Proof.
  unfold detalles_de. rewrite fmap_imap, <- imap_seq.
  apply imap_ext. intros i emp _. simpl. lia.
Qed.

Lemma detalles_de_empleado (empleados : list Empleado.t) :
  DetalleNomina.empleado <$> detalles_de empleados = empleados.
Proof.
  unfold detalles_de. rewrite fmap_imap.
  rewrite (imap_ext _ (const id)) by done.
  by rewrite imap_const, list_fmap_id.
Qed.

(** The [i]-th line item, counting from 0, is that of the [i]-th employee
    and has number [i + 1]. *)
Lemma detalles_de_lookup (empleados : list Empleado.t) (i : nat) (emp : Empleado.t) :
  empleados !! i = Some emp →
  detalles_de empleados !! i
  = Some (_calcular_detalle_empleado emp (Z.of_nat i + 1)).
Proof. intros Hi. unfold detalles_de. by rewrite list_lookup_imap, Hi. Qed.

Lemma generar_nomina_mensual_listar {R : Type} `{IRepositorio R}
    (aniomes : Py.str) (repo : R) :
  generar_nomina_mensual aniomes repo
  = match listar repo with
    | OK [] => Raise (ValueError NoHayEmpleados)
    | OK empleados =>
        OK (Nomina.calcular_totales
              (Nomina.set_detalles (Nomina.__init__ 1 aniomes) (detalles_de empleados)))
    | Raise e => Raise e
    end.
Proof.
  unfold generar_nomina_mensual, log_operacion.
  by destruct (listar repo) as [[| emp empleados] | e].
Qed.

(** C2. Monthly payroll generation raises the no-employees [ValueError]
    exactly when the repository lists no employee; when it lists [N >= 1]
    employees, the payroll returned has id 1 and one line item per employee,
    in the order listed, numbered 1 to [N]. *)
Theorem generar_nomina_mensual_spec (aniomes : Py.str) (a : RepositorioBase.archivo) :
  (generar_nomina_mensual aniomes a = Raise (ValueError NoHayEmpleados)
   ↔ RepositorioEmpleados.listar a = OK [])
  ∧ ∀ empleados : list Empleado.t,
      RepositorioEmpleados.listar a = OK empleados → empleados ≠ [] →
      ∃ nomina : Nomina.t,
        generar_nomina_mensual aniomes a = OK nomina
        ∧ Nomina.id nomina = 1%Z
        ∧ length (Nomina.detalles nomina) = length empleados
        ∧ DetalleNomina.id <$> Nomina.detalles nomina
          = Z.of_nat <$> seq 1 (length empleados)
        ∧ DetalleNomina.empleado <$> Nomina.detalles nomina = empleados.
Proof.
  rewrite generar_nomina_mensual_listar. simpl. split.
  - destruct (RepositorioEmpleados.listar a) as [[| emp empleados] | e] eqn:Hl.
    + done.
    + split; congruence.
    + split; [| congruence]. intros [= ->].
      destruct (listar_raise _ _ Hl); congruence.
  - intros [| emp empleados] -> Hne; [done |].
    exists (Nomina.calcular_totales
              (Nomina.set_detalles (Nomina.__init__ 1 aniomes)
                 (detalles_de (emp :: empleados)))).
    split; [done |]. split; [done |].
    split; [exact (length_imap _ _) |].
    split; [exact (detalles_de_id _) | exact (detalles_de_empleado _)].
Qed.

Lemma generar_nomina_mensual_spec_witness :
  RepositorioEmpleados.listar archivo_ab = OK [ana; beto]
  ∧ ∃ nomina : Nomina.t,
      generar_nomina_mensual (Py.lit "202404") archivo_ab = OK nomina
      ∧ Nomina.id nomina = 1%Z
      ∧ length (Nomina.detalles nomina) = 2
      ∧ DetalleNomina.id <$> Nomina.detalles nomina = [1%Z; 2%Z]
      ∧ DetalleNomina.empleado <$> Nomina.detalles nomina = [ana; beto].
Proof.
  split; [reflexivity |].
  apply (proj2 (generar_nomina_mensual_spec (Py.lit "202404") archivo_ab) [ana; beto]);
    [reflexivity | discriminate].
Defined.

(** With no file, and with a file that holds no record, generation
    raises. *)
Example generar_nomina_mensual_sin_empleados :
  generar_nomina_mensual (Py.lit "202404") (None : RepositorioBase.archivo)
  = Raise (ValueError NoHayEmpleados)
  ∧ generar_nomina_mensual (Py.lit "202404") (Some [] : RepositorioBase.archivo)
    = Raise (ValueError NoHayEmpleados).
Proof. split; reflexivity. Qed.




(** The totals of the specification's scenario. *)
Example nomina_ab_totales :
  Nomina.tot_ing nomina_ab = 2100.0%float
  ∧ Nomina.tot_des nomina_ab = 229.0%float
  ∧ Nomina.neto nomina_ab = 1871.0%float.
Proof. repeat split. Qed.

End Generacion.

(** ** Statistics *)

(** The summary of the specification's scenario. *)
Example estadisticas_nomina_ab :
  let est := Nomina.Resumen.generar_estadisticas (Nomina.obtener_resumen nomina_ab) in
  est !! "total_empleados" = Some (VInt 2)
  ∧ est !! "total_neto_pagado" = Some (VFloat 1871.0)
  ∧ est !! "promedio_sueldos" = Some (VFloat 1000.0)
  ∧ est !! "empleados_alto_sueldo" = Some (VInt 1)
  ∧ est !! "empleado_mayor_neto" = Some (VStr (Py.lit "Beto"))
  ∧ est !! "empleado_menor_neto" = Some (VStr (Py.lit "Ana"))
  ∧ est !! "valor_mayor_neto" = Some (VFloat 1116.6)
  ∧ est !! "valor_menor_neto" = Some (VFloat 754.4).
Proof. repeat split. Qed.




(** * More of the repository *)

Section Registros.
Import RepositorioBase RepositorioEmpleados.

(** A record loads only if it is the serialized form of the employee. *)
Lemma deserializar_OK (data : dict) (e : Empleado.t) :
  _deserializar data = OK e → data = _serializar e.
Proof.
  change (_deserializar data) with (Empleado.init [] data).
  unfold Empleado.init, Empleado.params. cbn [Py.bind].
  destruct (data !! "cedula") as [v1 |] eqn:H1; [| done].
  destruct (delete "cedula" data !! "nombre") as [v2 |] eqn:H2; [| done].
  destruct (delete "nombre" (delete "cedula" data) !! "sueldo") as [v3 |] eqn:H3; [| done].
  destruct (delete "sueldo" (delete "nombre" (delete "cedula" data)) !! "departamento")
    as [v4 |] eqn:H4; [| done].
  destruct (delete "departamento" (delete "sueldo" (delete "nombre" (delete "cedula" data)))
            !! "cargo") as [v5 |] eqn:H5; [| done].
  case_decide as Hs; [| done]. simpl.
  destruct v1 as [c | |]; try done. destruct v2 as [n | |]; try done.
  destruct v3 as [| | s]; try done. destruct v4 as [d | |]; try done.
  destruct v5 as [g | |]; try done. intros [= <-].
  apply map_size_empty_iff in Hs.
  rewrite !lookup_delete_ne in H2 by done. rewrite !lookup_delete_ne in H3 by done.
  rewrite !lookup_delete_ne in H4 by done. rewrite !lookup_delete_ne in H5 by done.
  unfold _serializar, Empleado.__dict__. simpl.
  apply map_eq. intros k.
  destruct (decide (k = "cedula")) as [-> | N1]; [by rewrite lookup_insert_eq |].
  rewrite lookup_insert_ne by done.
  destruct (decide (k = "nombre")) as [-> | N2]; [by rewrite lookup_insert_eq |].
  rewrite lookup_insert_ne by done.
  destruct (decide (k = "sueldo")) as [-> | N3]; [by rewrite lookup_insert_eq |].
  rewrite lookup_insert_ne by done.
  destruct (decide (k = "departamento")) as [-> | N4]; [by rewrite lookup_insert_eq |].
  rewrite lookup_insert_ne by done.
  destruct (decide (k = "cargo")) as [-> | N5]; [by rewrite lookup_insert_eq |].
  rewrite lookup_insert_ne by done.
  rewrite lookup_empty.
  apply (f_equal (fun m : dict => m !! k)) in Hs.
  by rewrite !lookup_delete_ne, lookup_empty in Hs by done.
Qed.

End Registros.

Section MasRepositorio.
Import RepositorioBase RepositorioEmpleados.

(** ** Scans, again *)

Lemma sin_cedula_size (emp : dict) (v : value) :
  emp !! "cedula" = Some v → size emp ≠ 0.
Proof. intros Hv. apply map_size_ne_0_lookup. by exists "cedula"; eexists. Qed.

Lemma next_if_es (cedula : Py.str) (datos : list dict) :
  con_cedula datos →
  Py.next_if (es cedula) datos = OK (List.find (tiene_clave cedula) datos).
Proof.
  induction 1 as [| emp datos Hemp _ IH]; simpl; [done |].
  rewrite (es_con_cedula _ _ Hemp). simpl.
  by destruct (tiene_clave cedula emp).
Qed.

Lemma find_ausente (cedula : Py.str) (datos : list dict) :
  presente cedula datos = false ↔ List.find (tiene_clave cedula) datos = None.
Proof.
  unfold presente. induction datos as [| emp datos IH]; simpl; [done |].
  by destruct (tiene_clave cedula emp).
Qed.

Lemma find_app_ausente (cedula : Py.str) (pre post : list dict) :
  presente cedula pre = false →
  List.find (tiene_clave cedula) (pre ++ post) = List.find (tiene_clave cedula) post.
Proof.
  unfold presente. induction pre as [| emp pre IH]; simpl; [done |].
  destruct (tiene_clave cedula emp); [done | exact IH].
Qed.

Lemma presente_app (cedula : Py.str) (pre post : list dict) :
  presente cedula (pre ++ post) = presente cedula pre || presente cedula post.
Proof. apply existsb_app. Qed.


Lemma cuenta_cons (cedula : Py.str) (emp : dict) (datos : list dict) :
  cuenta cedula (emp :: datos)
  = (if tiene_clave cedula emp then 1 else 0) + cuenta cedula datos.
Proof. unfold cuenta. simpl. by destruct (tiene_clave cedula emp). Qed.


(** What the scan of [obtener] returns on a file whose records have keys:
    the first record of the key, loaded. *)
Lemma obtener_find (cedula : Py.str) (a : archivo) :
  con_cedula (_cargar_datos a) →
  obtener cedula a
  = match List.find (tiene_clave cedula) (_cargar_datos a) with
    | Some emp => e ← _deserializar emp; OK (Some e)
    | None => OK None
    end.
Proof.
  intros Hwf. unfold obtener. rewrite (next_if_es _ _ Hwf). simpl.
  destruct (List.find (tiene_clave cedula) (_cargar_datos a)) as [emp |] eqn:Hf; [| done].
  apply List.find_some in Hf as [_ Hk]. apply tiene_clave_spec in Hk.
  case_decide as Hs; [| done]. by apply sin_cedula_size in Hk.
Qed.

(** The first record of a key splits the file. *)
Lemma presente_partes (cedula : Py.str) (datos : list dict) :
  presente cedula datos = true →
  ∃ pre viejo post,
    datos = pre ++ viejo :: post
    ∧ presente cedula pre = false
    ∧ tiene_clave cedula viejo = true.
Proof.
  unfold presente. induction datos as [| emp datos IH]; simpl; [done |].
  destruct (tiene_clave cedula emp) eqn:Hk; simpl.
  - intros _. by exists [], emp, datos.
  - intros (pre & viejo & post & -> & Hpre & Hv)%IH.
    exists (emp :: pre), viejo, post. simpl. by rewrite Hk.
Qed.



Lemma es_eq (cedula : Py.str) (emp : dict) :
  es cedula emp
  = match emp !! "cedula" with
    | Some v => OK (Py.eq_str v cedula)
    | None => Raise (KeyError "cedula")
    end.
Proof. unfold es, Py.getitem. by destruct (emp !! "cedula"). Qed.


Lemma any_es_false (cedula : Py.str) (datos : list dict) :
  Py.any (es cedula) datos = OK false →
  con_cedula datos ∧ presente cedula datos = false.
Proof.
  unfold presente, con_cedula. induction datos as [| emp datos IH]; simpl; [done |].
  rewrite es_eq. unfold tiene_clave.
  destruct (emp !! "cedula") as [v |] eqn:Hv; simpl; [| done].
  destruct (Py.eq_str v cedula); simpl; [done |].
  intros [Hwf Hp]%IH. split; [| done]. constructor; [by eexists | done].
Qed.

Lemma crear_OK (e : Empleado.t) (a : archivo) :
  (crear e a).1 = OK true →
  con_cedula (_cargar_datos a)
  ∧ presente (Empleado.cedula e) (_cargar_datos a) = false
  ∧ (crear e a).2 = Some (_cargar_datos a ++ [_serializar e]).
Proof.
  unfold crear, log_operacion.
  destruct (Py.any (es (Empleado.cedula e)) (_cargar_datos a)) as [[|] | x] eqn:Ha;
    simpl; try done.
  intros _. by destruct (any_es_false _ _ Ha).
Qed.

Lemma find_sin_clave_otra (cedula otra : Py.str) (datos : list dict) :
  otra ≠ cedula →
  List.find (tiene_clave otra) (sin_clave cedula datos)
  = List.find (tiene_clave otra) datos.
Proof.
  intros Hne. unfold sin_clave. induction datos as [| emp datos IH]; simpl; [done |].
  destruct (tiene_clave cedula emp) eqn:Hk; simpl.
  - by rewrite (tiene_clave_otra _ _ _ Hne Hk).
  - by destruct (tiene_clave otra emp).
Qed.

Lemma con_cedula_sin_clave (cedula : Py.str) (datos : list dict) :
  con_cedula datos → con_cedula (sin_clave cedula datos).
Proof.
  unfold con_cedula, sin_clave. rewrite !Forall_forall.
  intros H emp [Hin _]%list_elem_of_In%List.filter_In. by apply H, list_elem_of_In.
Qed.

Lemma eliminar_eq (cedula : Py.str) (a : archivo) :
  con_cedula (_cargar_datos a) →
  eliminar cedula a
  = if presente cedula (_cargar_datos a)
    then (OK true, Some (sin_clave cedula (_cargar_datos a)))
    else (OK false, a).
Proof.
  intros Hwf. unfold eliminar, log_operacion. rewrite (list_if_no_es _ _ Hwf).
  pose proof (sin_clave_length cedula (_cargar_datos a)) as Hlen.
  destruct (presente cedula (_cargar_datos a)) eqn:Hp.
  - apply presente_cuenta in Hp. case_decide; [done | lia].
  - rewrite (sin_clave_ausente _ _ Hp). case_decide; [lia | done].
Qed.


Lemma tiene_clave_serializar_iff (c : Py.str) (e : Empleado.t) :
  tiene_clave c (_serializar e) = true ↔ Empleado.cedula e = c.
Proof.
  rewrite tiene_clave_spec. destruct e as [c' n s d g]. simpl.
  unfold _serializar, Empleado.__dict__. simpl. rewrite lookup_insert_eq.
  split; intros; congruence.
Qed.

(** ** Laws of the repository *)



(** X3. On a file whose records all have a key field, [obtener] returns
    [None] for a key no record has; for a key some record has it loads the
    first record of that key, and an employee it returns has the key asked
    for and is the one that record serializes. *)
Theorem obtener_spec (cedula : Py.str) (a : archivo) :
  con_cedula (_cargar_datos a) →
  (presente cedula (_cargar_datos a) = false → obtener cedula a = OK None)
  ∧ (presente cedula (_cargar_datos a) = true →
     ∃ pre emp post,
       _cargar_datos a = pre ++ emp :: post
       ∧ presente cedula pre = false
       ∧ emp !! "cedula" = Some (VStr cedula)
       ∧ obtener cedula a = (e ← _deserializar emp; OK (Some e))
       ∧ ∀ e, obtener cedula a = OK (Some e) →
           emp = _serializar e ∧ Empleado.cedula e = cedula).
Proof.
  intros Hwf. rewrite (obtener_find _ _ Hwf). split; intros Hp.
  - apply find_ausente in Hp. by rewrite Hp.
  - destruct (presente_partes _ _ Hp) as (pre & emp & post & Hd & Hpre & Hk).
    exists pre, emp, post. rewrite Hd, (find_app_ausente _ _ _ Hpre). simpl. rewrite Hk.
    split; [done |]. split; [done |]. split; [by apply tiene_clave_spec |].
    split; [done |]. intros e.
    destruct (_deserializar emp) as [e' |] eqn:He; simpl; [| done].
    intros [= <-]. apply deserializar_OK in He. subst emp.
    split; [done |]. by apply tiene_clave_serializar_iff.
Qed.

Lemma obtener_spec_witness :
  con_cedula (_cargar_datos archivo_ab)
  ∧ presente (Py.lit "0303") (_cargar_datos archivo_ab) = false
  ∧ obtener (Py.lit "0303") archivo_ab = OK None.
Proof.
  split; [exact con_cedula_archivo_ab |]. split; [reflexivity |].
  apply (obtener_spec (Py.lit "0303") archivo_ab con_cedula_archivo_ab). reflexivity.
Defined.

Lemma find_medio {A} (f : A → bool) (pre post : list A) (x : A) :
  List.find f (pre ++ x :: post)
  = match List.find f pre with
    | Some y => Some y
    | None => if f x then Some x else List.find f post
    end.
Proof.
  induction pre as [| y pre IH]; simpl; [done |]. by destruct (f y).
Qed.

Lemma listar_OK (a : archivo) (empleados : list Empleado.t) :
  listar a = OK empleados → _cargar_datos a = _serializar <$> empleados.
Proof.
  unfold listar. revert empleados.
  induction (_cargar_datos a) as [| data datos IH]; intros empleados; simpl.
  - by intros [= <-].
  - destruct (_deserializar data) as [e |] eqn:He; simpl; [| done].
    destruct (Py.list_for _deserializar datos) as [es' |]; simpl; [| done].
    intros [= <-]. simpl. by rewrite (deserializar_OK _ _ He), (IH es').
Qed.

Lemma listar_serializar (empleados : list Empleado.t) :
  listar (Some (_serializar <$> empleados)) = OK empleados.
Proof.
  unfold listar. cbn [_cargar_datos].
  induction empleados as [| e es' IH]; [done |].
  rewrite fmap_cons. cbn [Py.list_for].
  rewrite deserializar_serializar, IH. reflexivity.
Qed.

Lemma con_cedula_fmap_serializar (empleados : list Empleado.t) :
  con_cedula (_serializar <$> empleados).
Proof.
  unfold con_cedula. apply Forall_fmap, Forall_forall. intros [c n s d g] _. by eexists.
Qed.

Lemma find_fmap_serializar (c : Py.str) (empleados : list Empleado.t) :
  List.find (tiene_clave c) (_serializar <$> empleados)
  = _serializar <$> List.find (fun e => bool_decide (Empleado.cedula e = c)) empleados.
Proof.
  induction empleados as [| e es' IH]; simpl; [done |].
  destruct (tiene_clave c (_serializar e)) eqn:Hk.
  - apply tiene_clave_serializar_iff in Hk. by rewrite bool_decide_eq_true_2.
  - rewrite bool_decide_eq_false_2; [done |].
    intros Hc%tiene_clave_serializar_iff. congruence.
Qed.

(** X4. When [listar] succeeds the file holds exactly the serialized
    forms of the employees listed, in order, and [obtener] returns the
    first employee listed with the key, or [None] when none has it. *)
Theorem listar_obtener (a : archivo) (empleados : list Empleado.t) :
  listar a = OK empleados →
  _cargar_datos a = _serializar <$> empleados
  ∧ ∀ cedula,
      obtener cedula a
      = OK (List.find (fun e => bool_decide (Empleado.cedula e = cedula)) empleados).
Proof.
  intros Hd%listar_OK. split; [done |]. intros cedula.
  rewrite obtener_find by (rewrite Hd; apply con_cedula_fmap_serializar).
  rewrite Hd, find_fmap_serializar.
  destruct (List.find _ empleados) as [e |]; simpl; [| done].
  by rewrite deserializar_serializar.
Qed.

Lemma listar_obtener_witness :
  listar archivo_ab = OK [ana; beto]
  ∧ _cargar_datos archivo_ab = _serializar <$> [ana; beto]
  ∧ ∀ cedula,
      obtener cedula archivo_ab
      = OK (List.find (fun e => bool_decide (Empleado.cedula e = cedula)) [ana; beto]).
Proof. split; [reflexivity |]. exact (listar_obtener archivo_ab [ana; beto] eq_refl). Defined.

(** X5. After a [crear] that returns [True], [obtener] on the key of the
    employee returns the employee, [obtener] on any other key returns what
    it returned before, and [listar] lists the employee after those it
    listed before. *)
Theorem crear_obtener (e : Empleado.t) (a : archivo) :
  (crear e a).1 = OK true →
  obtener (Empleado.cedula e) (crear e a).2 = OK (Some e)
  ∧ (∀ c, c ≠ Empleado.cedula e → obtener c (crear e a).2 = obtener c a)
  ∧ (∀ empleados, listar a = OK empleados →
       listar (crear e a).2 = OK (empleados ++ [e])).
Proof.
  intros (Hwf & Hp & ->)%crear_OK.
  pose proof (con_cedula_serializar e _ Hwf) as Hwf'.
  split; [| split].
  - rewrite (obtener_find _ (Some _) Hwf'). simpl.
    rewrite (find_app_ausente _ _ _ Hp). simpl. rewrite tiene_clave_serializar.
    by rewrite deserializar_serializar.
  - intros c Hc. rewrite (obtener_find _ (Some _) Hwf'), (obtener_find _ _ Hwf). simpl.
    rewrite find_medio. simpl.
    destruct (tiene_clave c (_serializar e)) eqn:Hk.
    + apply tiene_clave_serializar_iff in Hk. congruence.
    + by destruct (List.find (tiene_clave c) (_cargar_datos a)).
  - intros empleados Hl. rewrite (listar_OK _ _ Hl).
    change [_serializar e] with (_serializar <$> [e]). rewrite <- fmap_app.
    apply listar_serializar.
Qed.

Lemma crear_obtener_witness :
  (crear beto (crear ana None).2).1 = OK true
  ∧ obtener (Empleado.cedula beto) archivo_ab = OK (Some beto)
  ∧ (∀ c, c ≠ Empleado.cedula beto →
       obtener c archivo_ab = obtener c (crear ana None).2)
  ∧ (∀ empleados, listar (crear ana None).2 = OK empleados →
       listar archivo_ab = OK (empleados ++ [beto])).
Proof.
  split; [reflexivity |]. exact (crear_obtener beto (crear ana None).2 eq_refl).
Defined.

(** X6. On a file whose records all have a key field, after [eliminar]
    of a key [obtener] finds nothing under it, a second [eliminar] of the
    key returns [False] and changes nothing, and [obtener] on any other key
    returns what it returned before. *)
Theorem eliminar_obtener (cedula : Py.str) (a : archivo) :
  con_cedula (_cargar_datos a) →
  obtener cedula (eliminar cedula a).2 = OK None
  ∧ eliminar cedula (eliminar cedula a).2 = (OK false, (eliminar cedula a).2)
  ∧ ∀ c, c ≠ cedula → obtener c (eliminar cedula a).2 = obtener c a.
Proof.
  intros Hwf. rewrite (eliminar_eq _ _ Hwf).
  destruct (presente cedula (_cargar_datos a)) eqn:Hp; simpl.
  - pose proof (con_cedula_sin_clave cedula _ Hwf) as Hwf'.
    pose proof (presente_sin_clave cedula (_cargar_datos a)) as Hp'.
    split; [| split].
    + rewrite obtener_find by done. simpl.
      by rewrite (proj1 (find_ausente _ _) Hp').
    + rewrite eliminar_eq by done. simpl. by rewrite Hp'.
    + intros c Hc. rewrite !obtener_find by done. simpl.
      by rewrite (find_sin_clave_otra _ _ _ Hc).
  - split; [| split].
    + rewrite obtener_find by done. by rewrite (proj1 (find_ausente _ _) Hp).
    + rewrite eliminar_eq by done. by rewrite Hp.
    + done.
Qed.

Lemma eliminar_obtener_witness :
  con_cedula (_cargar_datos archivo_ab)
  ∧ obtener (Py.lit "0101") (eliminar (Py.lit "0101") archivo_ab).2 = OK None
  ∧ eliminar (Py.lit "0101") (eliminar (Py.lit "0101") archivo_ab).2
    = (OK false, (eliminar (Py.lit "0101") archivo_ab).2)
  ∧ ∀ c, c ≠ Py.lit "0101" →
      obtener c (eliminar (Py.lit "0101") archivo_ab).2 = obtener c archivo_ab.
Proof.
  split; [exact con_cedula_archivo_ab |].
  exact (eliminar_obtener (Py.lit "0101") archivo_ab con_cedula_archivo_ab).
Defined.






(** ** Records without a key field *)





(** A record of the key followed by a record without the field: [crear]
    reports the duplicate and [obtener] loads the record, and [eliminar]
    raises [KeyError]. *)
Example registros_sin_cedula_ejemplo :
  crear ana (Some [_serializar ana; ∅])
  = (Raise (ValueError (YaExiste (Py.lit "0101"))), Some [_serializar ana; ∅])
  ∧ obtener (Py.lit "0101") (Some [_serializar ana; ∅]) = OK (Some ana)
  ∧ eliminar (Py.lit "0101") (Some [_serializar ana; ∅])
    = (Raise (KeyError "cedula"), Some [_serializar ana; ∅]).
Proof. repeat split. Qed.

(** ** Validation by position, and the files of the manager *)

Lemma strip_en_blanco (s : Py.str) :
  match Py.strip s with
  | [] => en_blanco s = true
  | _ :: _ => en_blanco s = false
  end.
Proof.
  pose proof (strip_nil s) as H. unfold en_blanco.
  destruct (Py.strip s) as [| c s']; [exact (proj1 H eq_refl) |].
  destruct (forallb Py.isspace s); [| done]. discriminate (proj2 H eq_refl).
Qed.

Lemma nuevo_eq (c n : Py.str) (s : float) (d g : Py.str) :
  Empleado.nuevo c n s d g
  = if en_blanco c then Raise (ValueError CamposVacios)
    else if en_blanco n then Raise (ValueError CamposVacios)
    else if (s <? 0)%float then Raise (ValueError ValoresNegativos)
    else if en_blanco d then Raise (ValueError CamposVacios)
    else if en_blanco g then Raise (ValueError CamposVacios)
    else OK (Empleado.mk c n s d g).
Proof.
  unfold Empleado.nuevo, Empleado.__init__, validar_entrada. cbn [revisar].
  pose proof (strip_en_blanco c) as Hc. destruct (Py.strip c); rewrite Hc; [done |].
  pose proof (strip_en_blanco n) as Hn. destruct (Py.strip n); rewrite Hn; [done |].
  destruct (s <? 0)%float; [done |].
  pose proof (strip_en_blanco d) as Hd. destruct (Py.strip d); rewrite Hd; [done |].
  pose proof (strip_en_blanco g) as Hg. destruct (Py.strip g); rewrite Hg; [done |].
  reflexivity.
Qed.


(** X10. Construction by position returns the employee exactly when no
    string field is all whitespace and the salary is not [< 0]; otherwise it
    raises one of the two validation errors, that of the first field at
    fault in the order cedula, nombre, sueldo, departamento, cargo. *)
Theorem nuevo_spec (c n : Py.str) (s : float) (d g : Py.str) :
  (Empleado.nuevo c n s d g = OK (Empleado.mk c n s d g)
   ↔ aceptado (Empleado.mk c n s d g) = true)
  ∧ (∀ e, Empleado.nuevo c n s d g = OK e → e = Empleado.mk c n s d g)
  ∧ (∀ x, Empleado.nuevo c n s d g = Raise x →
       x = ValueError CamposVacios ∨ x = ValueError ValoresNegativos)
  ∧ (Empleado.nuevo c n s d g = Raise (ValueError ValoresNegativos)
     ↔ en_blanco c = false ∧ en_blanco n = false ∧ (s <? 0)%float = true)
  ∧ (Empleado.nuevo c n s d g = Raise (ValueError CamposVacios)
     ↔ en_blanco c = true ∨ en_blanco n = true
       ∨ ((s <? 0)%float = false ∧ (en_blanco d = true ∨ en_blanco g = true))).
Proof.
  rewrite nuevo_eq. unfold aceptado. simpl.
  destruct (en_blanco c), (en_blanco n), (s <? 0)%float, (en_blanco d), (en_blanco g);
    simpl; repeat split; intros; try done; try (intuition congruence).
Qed.







Lemma en_regla_archivo_ab : en_regla archivo_ab.
Proof.
  split.
  - repeat constructor; [by exists ana | by exists beto].
  - intros c. change (_cargar_datos archivo_ab) with [_serializar ana; _serializar beto].
    rewrite !cuenta_cons. change (cuenta c []) with 0.
    destruct (tiene_clave c (_serializar ana)) eqn:H1;
      destruct (tiene_clave c (_serializar beto)) eqn:H2; try lia.
    apply tiene_clave_serializar_iff in H1, H2. by subst c.
Defined.







(** X13. On a file whose records all have a key field and that holds no
    key twice, a key that is present has exactly one record: [eliminar]
    then removes exactly one record, and after a [crear] of that key, which
    raises, the file still has exactly one record of it. *)
Theorem claves_unicas_uno (cedula : Py.str) (a : archivo) :
  con_cedula (_cargar_datos a) →
  (∀ c, cuenta c (_cargar_datos a) ≤ 1) →
  presente cedula (_cargar_datos a) = true →
  cuenta cedula (_cargar_datos a) = 1
  ∧ (eliminar cedula a).1 = OK true
  ∧ length (_cargar_datos (eliminar cedula a).2) + 1 = length (_cargar_datos a)
  ∧ ∀ e, Empleado.cedula e = cedula →
      (crear e a).1 = Raise (ValueError (YaExiste cedula))
      ∧ cuenta cedula (_cargar_datos (crear e a).2) = 1.
Proof.
  intros Hwf Hu Hp.
  assert (cuenta cedula (_cargar_datos a) = 1) as Hc.
  { apply presente_cuenta in Hp. specialize (Hu cedula). lia. }
  split; [done |]. rewrite (eliminar_eq _ _ Hwf), Hp. simpl.
  split; [done |]. split.
  { pose proof (sin_clave_length cedula (_cargar_datos a)). lia. }
  intros e <-. unfold crear, log_operacion. rewrite (any_es _ _ Hwf), Hp. by split.
Qed.

Lemma claves_unicas_uno_witness :
  con_cedula (_cargar_datos archivo_ab)
  ∧ (∀ c, cuenta c (_cargar_datos archivo_ab) ≤ 1)
  ∧ presente (Py.lit "0101") (_cargar_datos archivo_ab) = true
  ∧ cuenta (Py.lit "0101") (_cargar_datos archivo_ab) = 1
  ∧ (eliminar (Py.lit "0101") archivo_ab).1 = OK true
  ∧ length (_cargar_datos (eliminar (Py.lit "0101") archivo_ab).2) + 1
    = length (_cargar_datos archivo_ab).
Proof.
  split; [exact con_cedula_archivo_ab |].
  split; [exact (proj2 en_regla_archivo_ab) |]. split; [reflexivity |].
  destruct (claves_unicas_uno (Py.lit "0101") archivo_ab con_cedula_archivo_ab
              (proj2 en_regla_archivo_ab) eq_refl) as (H1 & H2 & H3 & _).
  exact (conj H1 (conj H2 H3)).
Defined.

End MasRepositorio.

(** * More of the payroll *)

(** ** The order of floats *)

Ltac sf_compare :=
  repeat match goal with
  | |- context [Z.compare ?a ?b] => destruct (Z.compare_spec a b)
  | H : context [Z.compare ?a ?b] |- _ => destruct (Z.compare_spec a b)
  | |- context [Pos.compare_cont Eq ?a ?b] =>
      change (Pos.compare_cont Eq a b) with (Pos.compare a b);
      destruct (Pos.compare_spec a b)
  | H : context [Pos.compare_cont Eq ?a ?b] |- _ =>
      change (Pos.compare_cont Eq a b) with (Pos.compare a b) in H;
      destruct (Pos.compare_spec a b)
  end; simpl in *; try discriminate; try reflexivity; try lia.

Lemma SFltb_irrefl (a : spec_float) : SFltb a a = false.
Proof.
  destruct a as [[|] | [|] | | [|] m e]; try reflexivity;
    unfold SFltb, SFcompare; sf_compare.
Qed.

Lemma SFltb_trans (a b c : spec_float) :
  SFltb a b = true → SFltb b c = true → SFltb a c = true.
Proof.
  destruct a as [[|] | [|] | | [|] ma ea], b as [[|] | [|] | | [|] mb eb],
    c as [[|] | [|] | | [|] mc ec]; unfold SFltb, SFcompare; simpl;
    try discriminate; try reflexivity; intros H1 H2; sf_compare.
Qed.

Lemma SFltb_eqb_r (b y m : spec_float) :
  SFeqb y m = true → SFltb b m = true → SFltb b y = true.
Proof.
  destruct b as [[|] | [|] | | [|] ma ea], y as [[|] | [|] | | [|] mb eb],
    m as [[|] | [|] | | [|] mc ec]; unfold SFltb, SFeqb, SFcompare; simpl;
    try discriminate; try reflexivity; intros H1 H2; sf_compare.
Qed.

Lemma SFltb_eqb_l (b y m : spec_float) :
  SFeqb y m = true → SFltb m b = true → SFltb y b = true.
Proof.
  destruct b as [[|] | [|] | | [|] ma ea], y as [[|] | [|] | | [|] mb eb],
    m as [[|] | [|] | | [|] mc ec]; unfold SFltb, SFeqb, SFcompare; simpl;
    try discriminate; try reflexivity; intros H1 H2; sf_compare.
Qed.

Lemma ltb_irrefl (x : float) : (x <? x)%float = false.
Proof. rewrite FloatAxioms.ltb_spec. apply SFltb_irrefl. Qed.

Lemma ltb_trans (x y z : float) :
  (x <? y)%float = true → (y <? z)%float = true → (x <? z)%float = true.
Proof. rewrite !FloatAxioms.ltb_spec. apply SFltb_trans. Qed.

Lemma ltb_eqb_r (b y m : float) :
  (y =? m)%float = true → (b <? m)%float = true → (b <? y)%float = true.
Proof. rewrite !FloatAxioms.ltb_spec, FloatAxioms.eqb_spec. apply SFltb_eqb_r. Qed.

Lemma ltb_eqb_l (b y m : float) :
  (y =? m)%float = true → (m <? b)%float = true → (y <? b)%float = true.
Proof. rewrite !FloatAxioms.ltb_spec, FloatAxioms.eqb_spec. apply SFltb_eqb_l. Qed.

(** ** The scans of [max] and [min] *)

Section Extremos.
Context {A : Type} (key : A → float).

Lemma max_by_inv (xs pre post : list A) (b : A) :
  (∀ y, y ∈ pre → (key b <? key y)%float = false ∧ (key y =? key b)%float = false) →
  (∀ y, y ∈ post → (key b <? key y)%float = false) →
  ∃ pre' post',
    pre ++ b :: post ++ xs = pre' ++ Py.max_by key b xs :: post'
    ∧ (∀ y, y ∈ pre' →
         (key (Py.max_by key b xs) <? key y)%float = false
         ∧ (key y =? key (Py.max_by key b xs))%float = false)
    ∧ (∀ y, y ∈ post' → (key (Py.max_by key b xs) <? key y)%float = false).
Proof.
  revert pre post b. induction xs as [| x xs IH]; intros pre post b Hpre Hpost.
  - exists pre, post. by rewrite app_nil_r.
  - unfold Py.max_by. cbn [foldl]. fold (Py.max_by key).
    destruct (key b <? key x)%float eqn:Hbx.
    + assert (∀ y, (key b <? key y)%float = false →
                   (key x <? key y)%float = false ∧ (key y =? key x)%float = false)
        as Hstep.
      { intros y Hby. split.
        - destruct (key x <? key y)%float eqn:Hxy; [| done].
          by rewrite (ltb_trans _ _ _ Hbx Hxy) in Hby.
        - destruct (key y =? key x)%float eqn:Hyx; [| done].
          by rewrite (ltb_eqb_r _ _ _ Hyx Hbx) in Hby. }
      destruct (IH (pre ++ b :: post) [] x) as (pre' & post' & Heq & H1 & H2).
      { intros y [Hy | [-> | Hy]%elem_of_cons]%elem_of_app.
        - apply Hstep, Hpre, Hy.
        - apply Hstep, ltb_irrefl.
        - apply Hstep, Hpost, Hy. }
      { by intros y ?%elem_of_nil. }
      exists pre', post'. split; [| split; assumption].
      etransitivity; [| exact Heq]. by rewrite <- app_assoc.
    + destruct (IH pre (post ++ [x]) b) as (pre' & post' & Heq & H1 & H2); [done | |].
      { intros y [Hy | ->%list_elem_of_singleton]%elem_of_app; [by apply Hpost | done]. }
      exists pre', post'. split; [| split; assumption].
      etransitivity; [| exact Heq]. by rewrite <- app_assoc.
Qed.

Lemma min_by_inv (xs pre post : list A) (b : A) :
  (∀ y, y ∈ pre → (key y <? key b)%float = false ∧ (key y =? key b)%float = false) →
  (∀ y, y ∈ post → (key y <? key b)%float = false) →
  ∃ pre' post',
    pre ++ b :: post ++ xs = pre' ++ Py.min_by key b xs :: post'
    ∧ (∀ y, y ∈ pre' →
         (key y <? key (Py.min_by key b xs))%float = false
         ∧ (key y =? key (Py.min_by key b xs))%float = false)
    ∧ (∀ y, y ∈ post' → (key y <? key (Py.min_by key b xs))%float = false).
Proof.
  revert pre post b. induction xs as [| x xs IH]; intros pre post b Hpre Hpost.
  - exists pre, post. by rewrite app_nil_r.
  - unfold Py.min_by. cbn [foldl]. fold (Py.min_by key).
    destruct (key x <? key b)%float eqn:Hbx.
    + assert (∀ y, (key y <? key b)%float = false →
                   (key y <? key x)%float = false ∧ (key y =? key x)%float = false)
        as Hstep.
      { intros y Hby. split.
        - destruct (key y <? key x)%float eqn:Hxy; [| done].
          by rewrite (ltb_trans _ _ _ Hxy Hbx) in Hby.
        - destruct (key y =? key x)%float eqn:Hyx; [| done].
          by rewrite (ltb_eqb_l _ _ _ Hyx Hbx) in Hby. }
      destruct (IH (pre ++ b :: post) [] x) as (pre' & post' & Heq & H1 & H2).
      { intros y [Hy | [-> | Hy]%elem_of_cons]%elem_of_app.
        - apply Hstep, Hpre, Hy.
        - apply Hstep, ltb_irrefl.
        - apply Hstep, Hpost, Hy. }
      { by intros y ?%elem_of_nil. }
      exists pre', post'. split; [| split; assumption].
      etransitivity; [| exact Heq]. by rewrite <- app_assoc.
    + destruct (IH pre (post ++ [x]) b) as (pre' & post' & Heq & H1 & H2); [done | |].
      { intros y [Hy | ->%list_elem_of_singleton]%elem_of_app; [by apply Hpost | done]. }
      exists pre', post'. split; [| split; assumption].
      etransitivity; [| exact Heq]. by rewrite <- app_assoc.
Qed.

End Extremos.

(** ** A salary that is not a number *)

Lemma add_nan_l (y : float) : (nan + y)%float = nan.
Proof. apply Prim2SF_inj. by rewrite add_spec. Qed.

Lemma add_nan_r (x : float) : (x + nan)%float = nan.
Proof.
  apply Prim2SF_inj. rewrite add_spec. change (Prim2SF nan) with S754_nan.
  by destruct (Prim2SF x).
Qed.

Lemma sub_nan_l (y : float) : (nan - y)%float = nan.
Proof. apply Prim2SF_inj. by rewrite sub_spec. Qed.

Lemma mul_nan_l (y : float) : (nan * y)%float = nan.
Proof. apply Prim2SF_inj. by rewrite mul_spec. Qed.

Lemma foldl_add_nan (xs : list float) : foldl PrimFloat.add nan xs = nan.
Proof. induction xs as [| x xs IH]; simpl; [done |]. by rewrite add_nan_l. Qed.

Lemma sum_nan (xs : list float) : nan ∈ xs → Py.sum xs = nan.
Proof.
  unfold Py.sum, Py.reduce_add. generalize 0%float.
  induction xs as [| x xs IH]; intros acc; [by intros ?%elem_of_nil |].
  intros [<- | Hin]%elem_of_cons; simpl.
  - by rewrite add_nan_r, foldl_add_nan.
  - by apply IH.
Qed.

Lemma detalle_nan (emp : Empleado.t) (i : Z) :
  Empleado.sueldo emp = nan →
  let d := ServicioNomina._calcular_detalle_empleado emp i in
  DetalleNomina.tot_ing d = nan ∧ DetalleNomina.tot_des d = nan.
Proof.
  intros Hs. unfold ServicioNomina._calcular_detalle_empleado, DetalleNomina.__init__.
  simpl. rewrite Hs, add_nan_l, mul_nan_l. split; [done |].
  change (Py.round nan 2) with nan. apply add_nan_l.
Qed.

Section MasNomina.
Import ServicioNomina.

(** X14. A salary that is NaN passes validation, since it is not [< 0];
    and when some employee listed has a NaN salary, the three totals of the
    payroll generated are NaN. *)
Theorem sueldo_nan :
  (∀ c n d g,
     en_blanco c = false → en_blanco n = false →
     en_blanco d = false → en_blanco g = false →
     Empleado.nuevo c n nan d g = OK (Empleado.mk c n nan d g))
  ∧ ∀ (R : Type) (repo_ops : IRepositorio R) (repo : R) aniomes empleados nomina,
      listar repo = OK empleados →
      (∃ e, e ∈ empleados ∧ Empleado.sueldo e = nan) →
      generar_nomina_mensual aniomes repo = OK nomina →
      Nomina.tot_ing nomina = nan
      ∧ Nomina.tot_des nomina = nan
      ∧ Nomina.neto nomina = nan.
Proof.
  split.
  - intros c n d g Hc Hn Hd Hg. by rewrite nuevo_eq, Hc, Hn, Hd, Hg.
  - intros R repo_ops repo aniomes empleados nomina Hl (e & [i Hi]%list_elem_of_lookup & Hs).
    rewrite generar_nomina_mensual_listar, Hl.
    destruct empleados as [| e0 es']; [done |]. intros [= <-].
    pose proof (detalles_de_lookup _ _ _ Hi) as Hd.
    destruct (detalle_nan e (Z.of_nat i + 1) Hs) as [H1 H2].
    assert (Py.sum (DetalleNomina.tot_ing <$> detalles_de (e0 :: es')) = nan) as Hti.
    { apply sum_nan, list_elem_of_lookup. exists i.
      rewrite list_lookup_fmap, Hd. exact (f_equal Some H1). }
    assert (Py.sum (DetalleNomina.tot_des <$> detalles_de (e0 :: es')) = nan) as Htd.
    { apply sum_nan, list_elem_of_lookup. exists i.
      rewrite list_lookup_fmap, Hd. exact (f_equal Some H2). }
    unfold Nomina.calcular_totales. cbn [Nomina.tot_ing Nomina.tot_des Nomina.neto
      Nomina.detalles Nomina.set_detalles].
    rewrite Hti, Htd. by rewrite sub_nan_l.
Qed.

(** X15. In a payroll generated for a period, the period is the one
    given, and every line item is the one computed from its own number and
    employee: the employee's salary, the bonus 50 and the loan 20. *)
Theorem nomina_detalles {R : Type} `{IRepositorio R}
    (aniomes : Py.str) (repo : R) (nomina : Nomina.t) :
  generar_nomina_mensual aniomes repo = OK nomina →
  Nomina.aniomes nomina = aniomes
  ∧ Forall (fun d =>
      d = DetalleNomina.__init__ (DetalleNomina.id d) (DetalleNomina.empleado d)
            (Empleado.sueldo (DetalleNomina.empleado d)) 50 20)
      (Nomina.detalles nomina).
Proof.
  rewrite generar_nomina_mensual_listar.
  destruct (listar repo) as [[| e es'] | x]; [done | | done].
  intros [= <-]. split; [done |].
  apply Forall_forall. intros d [i Hd]%list_elem_of_lookup.
  cbn [Nomina.detalles Nomina.calcular_totales Nomina.set_detalles] in Hd.
  unfold detalles_de in Hd. rewrite list_lookup_imap in Hd.
  destruct ((e :: es') !! i) as [emp |]; [| done]. by injection Hd as <-.
Qed.

Lemma nomina_detalles_witness :
  generar_nomina_mensual (Py.lit "202404") archivo_ab = OK nomina_ab
  ∧ Nomina.aniomes nomina_ab = Py.lit "202404"
  ∧ Forall (fun d =>
      d = DetalleNomina.__init__ (DetalleNomina.id d) (DetalleNomina.empleado d)
            (Empleado.sueldo (DetalleNomina.empleado d)) 50 20)
      (Nomina.detalles nomina_ab).
Proof.
  split; [reflexivity |].
  exact (nomina_detalles (Py.lit "202404") archivo_ab nomina_ab eq_refl).
Defined.

End MasNomina.

(** ** The statistics of a payroll with line items *)

Section MasEstadisticas.
Import Nomina.Resumen.

Lemma estadisticas_dom_llena (nomina : Nomina.t) :
  Nomina.detalles nomina ≠ [] →
  dom (generar_estadisticas (Nomina.obtener_resumen nomina)) = claves_llena.
Proof.
  unfold generar_estadisticas, Nomina.obtener_resumen, __init__.
  cbn [Nomina.Resumen.nomina].
  destruct (Nomina.detalles nomina) as [| d0 ds]; [done |]. intros _.
  rewrite !dom_insert_L, dom_empty_L. by vm_compute.
Qed.

(** X16. The summary has two forms.  Without line items it has three
    entries; with line items it has eight, among them the number of line
    items and a count of high salaries that is at most that number.  The
    only key the two forms share is [total_empleados], which holds the
    number of line items in both. *)
Theorem estadisticas_claves (nomina : Nomina.t) :
  let est := generar_estadisticas (Nomina.obtener_resumen nomina) in
  est !! "total_empleados"
  = Some (VInt (Z.of_nat (length (Nomina.detalles nomina))))
  ∧ (Nomina.detalles nomina = [] → dom est = claves_vacia)
  ∧ (Nomina.detalles nomina ≠ [] →
       dom est = claves_llena
       ∧ ∃ k : nat,
           est !! "empleados_alto_sueldo" = Some (VInt (Z.of_nat k))
           ∧ k ≤ length (Nomina.detalles nomina))
  ∧ claves_vacia ∩ claves_llena = {["total_empleados"]}.
Proof.
  intros est. subst est.
  unfold generar_estadisticas, Nomina.obtener_resumen, __init__.
  cbn [Nomina.Resumen.nomina].
  destruct (Nomina.detalles nomina) as [| d0 ds] eqn:Hd.
  - split; [done |]. split; [intros _; by vm_compute |]. split; [done | by vm_compute].
  - split; [done |]. split; [done |]. split; [| by vm_compute]. intros _. split.
    + rewrite !dom_insert_L, dom_empty_L. by vm_compute.
    + eexists. split; [reflexivity |]. apply List.filter_length_le.
Qed.

(** X17. With line items, the employee of the largest net pay and that
    value are those of one line item, which no line item exceeds in net pay
    and no earlier line item equals in net pay; likewise the smallest net
    pay is that of a line item that none goes below and no earlier one
    equals. *)
Theorem estadisticas_extremos (nomina : Nomina.t) :
  Nomina.detalles nomina ≠ [] →
  let est := generar_estadisticas (Nomina.obtener_resumen nomina) in
  ∃ pre mayor post pre' menor post',
    Nomina.detalles nomina = pre ++ mayor :: post
    ∧ Nomina.detalles nomina = pre' ++ menor :: post'
    ∧ est !! "empleado_mayor_neto"
      = Some (VStr (Empleado.nombre (DetalleNomina.empleado mayor)))
    ∧ est !! "valor_mayor_neto" = Some (VFloat (DetalleNomina.neto mayor))
    ∧ est !! "empleado_menor_neto"
      = Some (VStr (Empleado.nombre (DetalleNomina.empleado menor)))
    ∧ est !! "valor_menor_neto" = Some (VFloat (DetalleNomina.neto menor))
    ∧ (∀ d, d ∈ Nomina.detalles nomina →
         (DetalleNomina.neto mayor <? DetalleNomina.neto d)%float = false
         ∧ (DetalleNomina.neto d <? DetalleNomina.neto menor)%float = false)
    ∧ (∀ d, d ∈ pre →
         (DetalleNomina.neto d =? DetalleNomina.neto mayor)%float = false)
    ∧ (∀ d, d ∈ pre' →
         (DetalleNomina.neto d =? DetalleNomina.neto menor)%float = false).
Proof.
  intros Hne est. subst est.
  unfold generar_estadisticas, Nomina.obtener_resumen, __init__.
  cbn [Nomina.Resumen.nomina].
  destruct (Nomina.detalles nomina) as [| d0 ds]; [done |].
  destruct (max_by_inv DetalleNomina.neto ds [] [] d0)
    as (pre & post & Hmax & Hpre & Hpost); [by intros y ?%elem_of_nil .. |].
  destruct (min_by_inv DetalleNomina.neto ds [] [] d0)
    as (pre' & post' & Hmin & Hpre' & Hpost'); [by intros y ?%elem_of_nil .. |].
  simpl in Hmax, Hmin.
  exists pre, (Py.max_by DetalleNomina.neto d0 ds), post,
    pre', (Py.min_by DetalleNomina.neto d0 ds), post'.
  split; [done |]. split; [done |]. do 4 (split; [reflexivity |]).
  split; [| split].
  - intros d Hin. split.
    + rewrite Hmax in Hin.
      apply elem_of_app in Hin as [Hin | [-> | Hin]%elem_of_cons].
      * by apply Hpre. * apply ltb_irrefl. * by apply Hpost.
    + rewrite Hmin in Hin.
      apply elem_of_app in Hin as [Hin | [-> | Hin]%elem_of_cons].
      * by apply Hpre'. * apply ltb_irrefl. * by apply Hpost'.
  - intros d Hin. by apply Hpre.
  - intros d Hin. by apply Hpre'.
Qed.

Lemma estadisticas_extremos_witness :
  let est := generar_estadisticas (Nomina.obtener_resumen nomina_ab) in
  Nomina.detalles nomina_ab ≠ []
  ∧ ∃ pre mayor post pre' menor post',
      Nomina.detalles nomina_ab = pre ++ mayor :: post
      ∧ Nomina.detalles nomina_ab = pre' ++ menor :: post'
      ∧ est !! "empleado_mayor_neto"
        = Some (VStr (Empleado.nombre (DetalleNomina.empleado mayor)))
      ∧ est !! "valor_mayor_neto" = Some (VFloat (DetalleNomina.neto mayor))
      ∧ est !! "empleado_menor_neto"
        = Some (VStr (Empleado.nombre (DetalleNomina.empleado menor)))
      ∧ est !! "valor_menor_neto" = Some (VFloat (DetalleNomina.neto menor))
      ∧ (∀ d, d ∈ Nomina.detalles nomina_ab →
           (DetalleNomina.neto mayor <? DetalleNomina.neto d)%float = false
           ∧ (DetalleNomina.neto d <? DetalleNomina.neto menor)%float = false)
      ∧ (∀ d, d ∈ pre →
           (DetalleNomina.neto d =? DetalleNomina.neto mayor)%float = false)
      ∧ (∀ d, d ∈ pre' →
           (DetalleNomina.neto d =? DetalleNomina.neto menor)%float = false).
Proof.
  assert (Nomina.detalles nomina_ab ≠ []) as Hne by discriminate.
  split; [exact Hne | exact (estadisticas_extremos nomina_ab Hne)].
Defined.

End MasEstadisticas.

(** * Saving and processing a payroll *)

Section Procesar.
Import RepositorioBase ServicioNomina.




(** X19. [procesar_nomina_completa] writes nothing when generation
    raises, which it does with the no-employees error exactly when no
    employee is listed, and nothing when the file of the period does not
    open.  When it returns, the payroll is the one generated, its file holds
    the data of the payroll and the other files are as before, and the
    statistics are those of the payroll, always in the form with eight
    entries. *)
Theorem procesar_nomina_completa_spec (abre : Py.str → bool) (aniomes : Py.str)
    (a : archivo) (fs : archivos) :
  let r := GestorEmpleados.procesar_nomina_completa abre aniomes a fs in
  (∀ x, r.1 = Hecho (Raise x) →
     generar_nomina_mensual aniomes a = Raise x ∧ r.2 = fs)
  ∧ (r.1 = Hecho (Raise (ValueError NoHayEmpleados))
     ↔ RepositorioEmpleados.listar a = OK [])
  ∧ (r.1 = OSError →
       abre (nombre_archivo aniomes) = false ∧ r.2 = fs
       ∧ ∃ nomina, generar_nomina_mensual aniomes a = OK nomina)
  ∧ (∀ nomina est, r.1 = Hecho (OK (nomina, est)) →
       generar_nomina_mensual aniomes a = OK nomina
       ∧ est = Nomina.Resumen.generar_estadisticas (Nomina.obtener_resumen nomina)
       ∧ dom est = claves_llena
       ∧ abre (nombre_archivo aniomes) = true
       ∧ r.2 !! nombre_archivo aniomes = Some (datos_nomina nomina)
       ∧ ∀ nombre, nombre ≠ nombre_archivo aniomes → r.2 !! nombre = fs !! nombre).
Proof.
  intros r. subst r. unfold GestorEmpleados.procesar_nomina_completa.
  rewrite generar_nomina_mensual_listar. cbn [listar RepositorioEmpleados_IRepositorio].
  destruct (RepositorioEmpleados.listar a) as [[| e es'] | x] eqn:Hl;
    cbn [mbind result_bind].
  - split; [by intros x [= <-] |]. split; [done |]. split; [done |].
    by intros nomina est.
  - unfold guardar_nomina. cbn [Nomina.aniomes Nomina.calcular_totales
      Nomina.set_detalles Nomina.__init__].
    destruct (abre (nombre_archivo aniomes)) eqn:Ha; cbn [fst snd].
    + split; [by intros x |]. split; [split; congruence |]. split; [done |].
      intros nomina est [= <- <-]. split; [done |]. split; [done |]. split.
      { by apply estadisticas_dom_llena. }
      split; [done |]. split; [apply lookup_insert_eq |].
      intros nombre Hne. by rewrite lookup_insert_ne.
    + split; [by intros x |]. split; [split; congruence |].
      split; [| by intros nomina est]. intros _. split; [done |]. split; [done |].
      by eexists.
  - split; [by intros y [= <-] |]. split; [| split; [done | by intros nomina est]].
    split; [| congruence]. intros [= ->].
    destruct (listar_raise _ _ Hl); congruence.
Qed.

Lemma procesar_nomina_completa_spec_witness :
  let r := GestorEmpleados.procesar_nomina_completa (fun _ => true)
             (Py.lit "202404") archivo_ab ∅ in
  r.1 = Hecho (OK (nomina_ab,
                   Nomina.Resumen.generar_estadisticas
                     (Nomina.obtener_resumen nomina_ab)))
  ∧ generar_nomina_mensual (Py.lit "202404") archivo_ab = OK nomina_ab
  ∧ r.2 !! nombre_archivo (Py.lit "202404") = Some (datos_nomina nomina_ab).
Proof.
  split; [reflexivity |].
  destruct (proj2 (proj2 (proj2
              (procesar_nomina_completa_spec (fun _ => true) (Py.lit "202404")
                 archivo_ab ∅)))
              nomina_ab _ eq_refl) as (H1 & _ & _ & _ & H2 & _).
  exact (conj H1 H2).
Defined.

(** X20. The two figures for the total net pay need not agree.  For the
    salaries 406 and 407, created through the manager, the statistics give
    796.1700000000001 as the total net paid, the sum of the net pays, and
    the payroll gives 796.17 as its net total, the difference of its two
    totals. *)
Theorem total_neto_difiere :
  ∃ a nomina x,
    alcanzable a
    ∧ generar_nomina_mensual (Py.lit "202404") a = OK nomina
    ∧ Nomina.Resumen.generar_estadisticas (Nomina.obtener_resumen nomina)
      !! "total_neto_pagado" = Some (VFloat x)
    ∧ (x =? Nomina.neto nomina)%float = false
    ∧ x = 796.1700000000001%float
    ∧ Nomina.neto nomina = 796.17%float.
Proof.
  exists (GestorEmpleados.crear_empleado (Py.lit "0202") (Py.lit "Beto") 407
            (Py.lit "Bodega") (Py.lit "Jefe")
            (GestorEmpleados.crear_empleado (Py.lit "0101") (Py.lit "Ana") 406
               (Py.lit "Ventas") (Py.lit "Cajera") None).2).2.
  eexists _, _. split; [apply alcanzable_crear, alcanzable_crear, alcanzable_inicio |].
  split; [reflexivity |]. repeat split.
Qed.

End Procesar.

(** * Loading a record *)

Section Cargar.
Import RepositorioEmpleados.

Lemma bind_dom (params : list string) (kwargs : dict) (vs : list value) :
  Py.bind params [] kwargs = OK vs → dom kwargs = list_to_set params.
Proof.
  revert kwargs vs. induction params as [| p params IH]; intros kwargs vs; simpl.
  - case_decide as Hs; [| done]. intros _.
    apply map_size_empty_iff in Hs. subst kwargs. by rewrite dom_empty_L.
  - destruct (kwargs !! p) as [a |] eqn:Hp; [| done].
    destruct (Py.bind params [] (delete p kwargs)) as [vs' |] eqn:Hb; simpl; [| done].
    intros _. apply IH in Hb. rewrite dom_delete_L in Hb.
    assert (p ∈ dom kwargs) by (apply elem_of_dom; eauto).
    apply set_eq. intros k. rewrite elem_of_union, elem_of_singleton, <- Hb.
    rewrite elem_of_difference, elem_of_singleton.
    destruct (decide (k = p)) as [-> |]; intuition congruence.
Qed.

Lemma dom_bind (params : list string) (kwargs : dict) :
  NoDup params → dom kwargs = list_to_set params →
  ∃ vs, Py.bind params [] kwargs = OK vs.
Proof.
  revert kwargs. induction params as [| p params IH]; intros kwargs Hnd Hdom; simpl.
  - apply dom_empty_iff_L in Hdom. subst kwargs. by eexists.
  - apply NoDup_cons in Hnd as [Hp Hnd].
    assert (p ∈ dom kwargs) as [a Ha]%elem_of_dom
      by (rewrite Hdom; apply elem_of_list_to_set; left).
    rewrite Ha. destruct (IH (delete p kwargs) Hnd) as [vs ->]; [| by eexists].
    rewrite dom_delete_L, Hdom. simpl.
    assert (p ∉ (list_to_set params : gset string)) as Hp'
      by by rewrite elem_of_list_to_set.
    apply set_eq. intros k.
    rewrite elem_of_difference, elem_of_union, !elem_of_singleton.
    destruct (decide (k = p)) as [-> |]; intuition congruence.
Qed.

(** X21. A record loads as an employee only if it is the serialized form
    of that employee, so serializing what was loaded gives the record back;
    and loading raises [TypeError] exactly when the fields of the record are
    not exactly the five of an employee: one missing, or one too many. *)
Theorem deserializar_spec (data : dict) :
  (∀ e, _deserializar data = OK e ↔ data = _serializar e)
  ∧ (_deserializar data = Raise TypeError
     ↔ dom data ≠ list_to_set Empleado.params).
Proof.
  split.
  - intros e. split; [apply deserializar_OK | intros ->; apply deserializar_serializar].
  - change (_deserializar data) with (Empleado.init [] data). unfold Empleado.init.
    destruct (Py.bind Empleado.params [] data) as [vs | x] eqn:Hb.
    + pose proof (bind_dom _ _ _ Hb) as Hdom. simpl.
      split; [| done]. intros Hm. exfalso. repeat case_match; congruence.
    + pose proof (bind_raise _ _ _ _ Hb) as ->. simpl. split; [| done].
      intros _ Hdom. destruct (dom_bind Empleado.params data) as [vs Hvs]; [| done |].
      * unfold Empleado.params.
        repeat (apply NoDup_cons; split;
                [rewrite ?elem_of_cons, elem_of_nil; intuition discriminate |]).
        apply NoDup_nil_2.
      * congruence.
Qed.

End Cargar.
